(** * FileFusion: a shallow embedding of the file-combining pipeline

    The development follows the package layout of the repository:
    [filefusion/utils/helpers.py], [filefusion/core/file_processor.py],
    [filefusion/core/output_formats.py] and [filefusion/cli.py].

    Conventions of the embedding:
    - a Python [str] or [bytes] value is a [string] (a sequence of 8-bit
      characters); a [str] stands for its UTF-8 encoding, so [str.lower]
      acts on the ASCII letters only;
    - a Python [int] is a [Z];
    - a call that may raise returns a value of [Exc];
    - every operating-system call reads its answer from a [World]; the
      answers of different calls on one path are independent of each other,
      because the file system can change between two calls. *)

From Stdlib Require Import ZArith Lia List String Ascii Bool DecimalString.
From stdpp Require Import base list strings.

Local Open Scope Z_scope.

(** ** Exceptions *)

Inductive ExcClass := OSError | UnicodeDecodeError | ValueError | KeyError | OtherError.

Record Exn := mkExn { exn_class : ExcClass; exn_msg : string }.

Inductive Exc (A : Type) : Type :=
| Return (a : A)
| Raise (e : Exn).
Arguments Return {A} a.
Arguments Raise {A} e.

Definition bind {A B} (m : Exc A) (k : A -> Exc B) : Exc B :=
  match m with
  | Return a => k a
  | Raise e => Raise e
  end.

Notation "'do' x <- m ; k" := (bind m (fun x => k))
  (at level 10, x name, m at level 100, k at level 200).

Definition is_unicode_error (e : Exn) : bool :=
  match exn_class e with UnicodeDecodeError => true | _ => false end.

(** A loop whose body may raise: the first exception ends it. *)
Fixpoint mapM {A B} (f : A -> Exc B) (l : list A) : Exc (list B) :=
  match l with
  | [] => Return []
  | a :: l' => do b <- f a; do bs <- mapM f l'; Return (b :: bs)
  end.

Fixpoint foldM {A S} (f : S -> A -> Exc S) (l : list A) (s : S) : Exc S :=
  match l with
  | [] => Return s
  | a :: l' => do s' <- f s a; foldM f l' s'
  end.

(** ** Python built-ins on [str] and [bytes] *)

Module Py.

Definition lower_char (c : ascii) : ascii :=
  let n := N_of_ascii c in
  if ((65 <=? n) && (n <=? 90))%N then ascii_of_N (n + 32) else c.


(** [s.lower()] *)
Fixpoint lower (s : string) : string :=
  match s with
  | EmptyString => EmptyString
  | String c s' => String (lower_char c) (lower s')
  end.


(** [s.lstrip(c)] for a one-character set. *)
Fixpoint lstrip (c : ascii) (s : string) : string :=
  match s with
  | EmptyString => EmptyString
  | String d s' => if Ascii.eqb d c then lstrip c s' else s
  end.

(** [s.split(sep)] for a one-character separator: never the empty list. *)
Fixpoint split (sep : ascii) (s : string) : list string :=
  match s with
  | EmptyString => [EmptyString]
  | String c s' =>
      if Ascii.eqb c sep then EmptyString :: split sep s'
      else match split sep s' with
           | [] => [String c EmptyString]
           | t :: ts => String c t :: ts
           end
  end.

(** [s.endswith(suf)]: the last [len(suf)] characters of [s] are [suf]. *)
Definition endswith (s suf : string) : bool :=
  (String.length suf <=? String.length s)%nat &&
  String.eqb (substring (String.length s - String.length suf) (String.length suf) s) suf.

(** Truth value of a [str] ([if s:]) and of an optional argument that
    defaults to [None]. *)
Definition truthy_str (o : option string) : bool :=
  match o with
  | None => false
  | Some s => negb (String.eqb s EmptyString)
  end.

Definition truthy_int (o : option Z) : bool :=
  match o with
  | None => false
  | Some n => negb (n =? 0)
  end.

(** [str(n)] and [f"{n}"] for an [int]. *)
Definition str_int (n : Z) : string := NilZero.string_of_int (Z.to_int n).

(** [any(...)] over a list of booleans computed left to right. *)
Definition any {A} (f : A -> bool) (l : list A) : bool := existsb f l.

(** [sum(...)] of integers. *)
Definition sum (l : list Z) : Z := fold_right Z.add 0 l.

(** [c * n] for a one-character string. *)
Fixpoint repeat_char (c : ascii) (n : nat) : string :=
  match n with
  | O => EmptyString
  | S n' => String c (repeat_char c n')
  end.

(** [f"{num / den:.2f}"] for integers [0 <= num] and [0 < den]: the
    quotient rounded to two decimals, ties to the even digit. Python
    computes the quotient as a double; for a power of two [den] and
    [num < 2^53] the double is the exact quotient and the text is this
    one. *)
Definition round_half_even (num den : Z) : Z :=
  let q := num / den in
  let r := num mod den in
  if 2 * r <? den then q
  else if den <? 2 * r then q + 1
  else if Z.even q then q else q + 1.

Definition two_digits (n : Z) : string :=
  if n <? 10 then String "0" (str_int n) else str_int n.

Definition format_2f (num den : Z) : string :=
  let h := round_half_even (num * 100) den in
  (str_int (h / 100) ++ "." ++ two_digits (h mod 100))%string.

(** Strict UTF-8 decoding, [chunk.decode('utf-8')]: the well-formed byte
    sequences of the Unicode standard (no overlong form, no surrogate,
    nothing above U+10FFFF). [Start] is the state between two characters,
    [Cont n lo hi] waits for [n] more bytes, the next one within
    [lo..hi]. *)
Inductive DecState := Start | Cont (n : nat) (lo hi : N).

Definition between (lo hi b : N) : bool := ((lo <=? b) && (b <=? hi))%N.

Definition utf8_step (st : DecState) (b : N) : option DecState :=
  match st with
  | Start =>
      if (b <=? 127)%N then Some Start
      else if between 194 223 b then Some (Cont 1 128 191)
      else if (b =? 224)%N then Some (Cont 2 160 191)
      else if between 225 236 b then Some (Cont 2 128 191)
      else if (b =? 237)%N then Some (Cont 2 128 159)
      else if between 238 239 b then Some (Cont 2 128 191)
      else if (b =? 240)%N then Some (Cont 3 144 191)
      else if between 241 243 b then Some (Cont 3 128 191)
      else if (b =? 244)%N then Some (Cont 3 128 143)
      else None
  | Cont n lo hi =>
      if between lo hi b then
        match n with
        | S (S m) => Some (Cont (S m) 128 191)
        | _ => Some Start
        end
      else None
  end.

Fixpoint utf8_run (st : DecState) (s : string) : option DecState :=
  match s with
  | EmptyString => Some st
  | String c s' =>
      match utf8_step st (N_of_ascii c) with
      | Some st' => utf8_run st' s'
      | None => None
      end
  end.

(** [true] when [s.decode('utf-8')] returns, [false] when it raises
    [UnicodeDecodeError]. *)
Definition decodes_utf8 (s : string) : bool :=
  match utf8_run Start s with
  | Some Start => true
  | _ => false
  end.

(** [b'\0' in chunk] *)
Fixpoint contains_null (s : string) : bool :=
  match s with
  | EmptyString => false
  | String c s' => Ascii.eqb c zero || contains_null s'
  end.

(** [f.read(n)] on a freshly opened file: the first [n] bytes, the whole
    file for a negative [n]. *)
Definition read_prefix (n : Z) (s : string) : string :=
  if n <? 0 then s else substring 0 (Z.to_nat n) s.

(** [os.path.join(a, b)] of [posixpath]. *)
Definition startswith_slash (s : string) : bool :=
  match s with
  | String c _ => Ascii.eqb c "/"
  | EmptyString => false
  end.

Definition os_path_join (a b : string) : string :=
  if startswith_slash b then b
  else if String.eqb a EmptyString || endswith a "/" then (a ++ b)%string
  else (a ++ "/" ++ b)%string.

(** Text-mode reading with the default [newline=None]: each of CR LF and
    CR becomes LF. *)
Fixpoint universal_newlines (s : string) : string :=
  match s with
  | EmptyString => EmptyString
  | String c s' =>
      if Ascii.eqb c "013" then
        match s' with
        | String d s'' =>
            if Ascii.eqb d "010"
            then String "010" (universal_newlines s'')
            else String "010" (universal_newlines s')
        | EmptyString => String "010" EmptyString
        end
      else String c (universal_newlines s')
  end.

End Py.

(** ** The environment of a run *)

(** [os.stat_result]; times in whole units of the clock. *)
Record StatResult := mkStat { st_size : Z; st_ctime : Z; st_mtime : Z }.

(** What the operating system and the clock answer. [open_rb] and [open_r]
    give the bytes that a binary and a text-mode reader see from
    [open] to end of file, or the exception that [open] or [read] raises;
    [datetime_fromtimestamp] gives the text that [str] and an f-string
    show for the [datetime] value. *)
Record World := mkWorld {
  os_path_isdir : string -> bool;
  os_walk : string -> list (string * list string * list string);
  os_listdir : string -> Exc (list string);
  os_path_isfile : string -> bool;
  os_access_R : string -> bool;
  os_path_abspath : string -> string;
  os_path_getsize : string -> Exc Z;
  os_stat : string -> Exc StatResult;
  datetime_fromtimestamp : Z -> Exc string;
  os_path_relpath : string -> string -> Exc string;
  open_rb : string -> Exc string;
  open_r : string -> Exc string;
  open_w : string -> Exc unit;
  datetime_now : string
}.

(** The [argparse] namespace of [parse_arguments]. *)
Record Args := mkArgs {
  path : string;
  include : option string;
  exclude : option string;
  max_size : option Z;
  include_binary : bool;
  output : string;
  format : string;
  comment_style : Z;
  recursive : bool;
  workers : Z
}.

(** ** filefusion/utils/helpers.py *)

Definition default_sample_size : Z := 8192.

Definition is_binary (w : World) (file_path : string) (sample_size : Z) : bool :=
  match open_rb w file_path with
  | Return data =>
      let chunk := Py.read_prefix sample_size data in
      if Py.contains_null chunk then true
      else if Py.decodes_utf8 chunk then false
      else true
  | Raise _ => true
  end.

Definition get_human_readable_size (size_bytes : Z) : string :=
  if 1024 * 1024 <? size_bytes then
    (Py.format_2f size_bytes (1024 * 1024) ++ " MB")%string
  else if 1024 <? size_bytes then
    (Py.format_2f size_bytes 1024 ++ " KB")%string
  else (Py.str_int size_bytes ++ " bytes")%string.

(** The metadata dictionary; [m_error] is the key ["error"], present only
    in the fallback. *)
Record Metadata := mkMetadata {
  m_size : Z;
  m_size_str : string;
  m_created : string;
  m_modified : string;
  m_error : option string
}.

Definition unknown_metadata (e : Exn) : Metadata :=
  {| m_size := 0; m_size_str := "Unknown"; m_created := "Unknown";
     m_modified := "Unknown"; m_error := Some (exn_msg e) |}.

Definition get_file_metadata (w : World) (file_path : string) : Metadata :=
  match
    (do stats <- os_stat w file_path;
     let size := st_size stats in
     do created <- datetime_fromtimestamp w (st_ctime stats);
     do modified <- datetime_fromtimestamp w (st_mtime stats);
     let size_str := get_human_readable_size size in
     Return {| m_size := size; m_size_str := size_str; m_created := created;
               m_modified := modified; m_error := None |})
  with
  | Return m => m
  | Raise e => unknown_metadata e
  end.

(** ** filefusion/core/file_processor.py *)

(** A result dictionary of [process_file], by its ["status"] key. *)
Inductive Result :=
| Success (file_path : string) (metadata : Metadata) (header content footer : string)
| Skipped (file_path reason : string)
| Error (file_path reason : string).

Definition get_all_files (w : World) (directory : string) (recursive : bool)
  : Exc (list string) :=
  if recursive then
    Return (flat_map (fun '(root, _, files) =>
                        map (fun file => Py.os_path_join root file) files)
                     (os_walk w directory))
  else
    do items <- os_listdir w directory;
    Return (filter (fun item_path => os_path_isfile w item_path = true)
                   (map (fun item => Py.os_path_join directory item) items)).

(** [f".{ext.lstrip('.')}"] *)
Definition dotted (ext : string) : string := String "." (Py.lstrip "." ext).

(** [[f".{ext.lstrip('.')}" for ext in spec.split(',')]] *)
Definition dotted_exts (spec : string) : list string :=
  map dotted (Py.split "," spec).

(** [any(file_path.lower().endswith(ext.lower()) for ext in exts)] *)
Definition any_endswith (file_path : string) (exts : list string) : bool :=
  Py.any (fun ext => Py.endswith (Py.lower file_path) (Py.lower ext)) exts.

(** The five conditions of [should_process_file], in the order of the
    source. *)

(** [not os.path.isfile(file_path) or not os.access(file_path, os.R_OK)] *)
Definition missing_or_unreadable (w : World) (file_path : string) : bool :=
  negb (os_path_isfile w file_path) || negb (os_access_R w file_path).

(** [os.path.abspath(file_path) == os.path.abspath(args.output)] *)
Definition is_output_file (w : World) (file_path : string) (args : Args) : bool :=
  String.eqb (os_path_abspath w file_path) (os_path_abspath w (output args)).

(** [args.max_size and os.path.getsize(file_path) > args.max_size * 1024]:
    [getsize] is called only for a maximum that is neither [None] nor 0. *)
Definition over_max_size (w : World) (file_path : string) (args : Args) : Exc bool :=
  match max_size args with
  | Some m =>
      if m =? 0 then Return false
      else do sz <- os_path_getsize w file_path; Return (m * 1024 <? sz)
  | None => Return false
  end.

(** [args.include] is set and no extension of it ends the path. *)
Definition not_included (file_path : string) (args : Args) : bool :=
  match include args with
  | Some inc =>
      negb (String.eqb inc EmptyString) &&
      negb (any_endswith file_path (dotted_exts inc))
  | None => false
  end.

(** [args.exclude] is set and an extension of it ends the path. *)
Definition is_excluded (file_path : string) (args : Args) : bool :=
  match exclude args with
  | Some exc =>
      negb (String.eqb exc EmptyString) &&
      any_endswith file_path (dotted_exts exc)
  | None => false
  end.

Definition should_process_file (w : World) (file_path : string) (args : Args)
  : Exc bool :=
  (* Check if file exists and is readable *)
  if missing_or_unreadable w file_path then Return false
  (* Skip the output file *)
  else if is_output_file w file_path args then Return false
  else
    (* Check max size *)
    do too_big <- over_max_size w file_path args;
    if too_big then Return false
    (* Check include extensions *)
    else if not_included file_path args then Return false
    (* Check exclude extensions *)
    else if is_excluded file_path args then Return false
    else Return true.

Definition line (s : string) : string := (s ++ String "010" EmptyString)%string.

Definition rule80 : string := Py.repeat_char "=" 80.

Definition build_file_header (w : World) (file_path : string) (args : Args)
    (metadata : Metadata) (comment_style : string) : Exc (string * string) :=
  do rel_path <- os_path_relpath w file_path (path args);
  let nl := String "010" EmptyString in
  if String.eqb (format args) "text" then
    Return ((line (comment_style ++ " File: " ++ rel_path) ++
             line (comment_style ++ " Size: " ++ m_size_str metadata) ++
             line (comment_style ++ " Created: " ++ m_created metadata) ++
             line (comment_style ++ " Modified: " ++ m_modified metadata) ++
             line (comment_style ++ " " ++ rule80))%string,
            (nl ++ nl)%string)
  else if String.eqb (format args) "md" then
    Return ((line ("## " ++ rel_path) ++ nl ++
             line ("- Size: " ++ m_size_str metadata) ++
             line ("- Created: " ++ m_created metadata) ++
             line ("- Modified: " ++ m_modified metadata) ++ nl ++
             line "```")%string,
            (line "```" ++ nl)%string)
  else if String.eqb (format args) "html" then
    Return ((line "<div class='file'>" ++
             line ("<h2>" ++ rel_path ++ "</h2>") ++
             line "<div class='metadata'>" ++
             line ("<p>Size: " ++ m_size_str metadata ++ "</p>") ++
             line ("<p>Created: " ++ m_created metadata ++ "</p>") ++
             line ("<p>Modified: " ++ m_modified metadata ++ "</p>") ++
             line "</div>" ++
             line "<pre><code>")%string,
            (line "</code></pre>" ++ line "</div>" ++ nl)%string)
  else
    Return ((line ("# " ++ rel_path) ++ nl)%string, (nl ++ nl)%string).

(** The [with open(file_path, 'r', encoding='utf-8')] block: the decoded
    text, a [UnicodeDecodeError] for bytes that are not UTF-8, or what
    [open] and [read] raise. *)
Definition read_text (w : World) (file_path : string) : Exc string :=
  do raw <- open_r w file_path;
  if Py.decodes_utf8 raw then Return (Py.universal_newlines raw)
  else Raise (mkExn UnicodeDecodeError "'utf-8' codec can't decode bytes").

Definition process_file (w : World) (args : Args) (file_path : string)
    (comment_style : string) : Exc Result :=
  do ok <- should_process_file w file_path args;
  if negb ok then
    Return (Skipped file_path "filtered out by rules")
  else if is_binary w file_path default_sample_size && negb (include_binary args) then
    Return (Skipped file_path "binary file")
  else
    match
      (let metadata := get_file_metadata w file_path in
       do hf <- build_file_header w file_path args metadata comment_style;
       match read_text w file_path with
       | Return content =>
           Return (Success file_path metadata (fst hf) content (snd hf))
       | Raise e =>
           if is_unicode_error e then Return (Skipped file_path "encoding error")
           else Raise e
       end)
    with
    | Return r => Return r
    | Raise e => Return (Error file_path (exn_msg e))
    end.

(** ** filefusion/core/output_formats.py *)

(** An open output file is the list of the strings written to it so far. *)
Definition write (outfile : list string) (s : string) : list string :=
  outfile ++ [s].

Record Stats := mkStats {
  processed : Z;
  skipped : Z;
  errors : Z;
  total_size : Z;
  total_size_str : string
}.

Definition write_output_header (w : World) (outfile : list string) (args : Args)
  : list string :=
  let current_time := datetime_now w in
  let nl := String "010" EmptyString in
  if String.eqb (format args) "text" then
    let outfile := write outfile (line ("# Combined Files from " ++ path args)) in
    let outfile := write outfile (line ("# Generated on: " ++ current_time)) in
    write outfile (line ("# " ++ rule80) ++ nl)
  else if String.eqb (format args) "md" then
    let outfile := write outfile (line ("# Combined Files from " ++ path args) ++ nl) in
    let outfile := write outfile (line ("Generated on: " ++ current_time) ++ nl) in
    write outfile (line "---" ++ nl)
  else if String.eqb (format args) "html" then
    fold_left write
      [ line "<!DOCTYPE html>";
        line "<html lang='en'>";
        line "<head>";
        line "    <meta charset='UTF-8'>";
        line "    <meta name='viewport' content='width=device-width, initial-scale=1.0'>";
        line ("    <title>Combined Files from " ++ path args ++ "</title>");
        line "    <style>";
        line "        body { font-family: Arial, sans-serif; margin: 20px; }";
        line "        .file { margin-bottom: 30px; border: 1px solid #ddd; padding: 15px; border-radius: 5px; }";
        line "        .metadata { color: #666; margin-bottom: 10px; }";
        line "        h1 { color: #333; }";
        line "        h2 { color: #0066cc; }";
        line "        pre { background-color: #f5f5f5; padding: 10px; border-radius: 5px; overflow: auto; }";
        line "    </style>";
        line "</head>";
        line "<body>";
        line ("<h1>Combined Files from " ++ path args ++ "</h1>");
        (line ("<p>Generated on: " ++ current_time ++ "</p>") ++ nl)%string ]
      outfile
  else outfile.

Definition write_output_footer (outfile : list string) (args : Args) (stats : Stats)
  : list string :=
  if String.eqb (format args) "text" then
    fold_left write
      [ line ("# " ++ rule80);
        line "# Summary Statistics";
        line ("# Files processed: " ++ Py.str_int (processed stats));
        line ("# Files skipped: " ++ Py.str_int (skipped stats));
        line ("# Total size: " ++ total_size_str stats) ]
      outfile
  else if String.eqb (format args) "md" then
    fold_left write
      [ (line "## Summary Statistics" ++ String "010" EmptyString)%string;
        line ("- Files processed: " ++ Py.str_int (processed stats));
        line ("- Files skipped: " ++ Py.str_int (skipped stats));
        line ("- Total size: " ++ total_size_str stats) ]
      outfile
  else if String.eqb (format args) "html" then
    fold_left write
      [ line "<div class='summary'>";
        line "<h2>Summary Statistics</h2>";
        line ("<p>Files processed: " ++ Py.str_int (processed stats) ++ "</p>");
        line ("<p>Files skipped: " ++ Py.str_int (skipped stats) ++ "</p>");
        line ("<p>Total size: " ++ total_size_str stats ++ "</p>");
        line "</div>";
        line "</body>";
        line "</html>" ]
      outfile
  else outfile.

(** ** concurrent.futures.ThreadPoolExecutor *)

Module Executor.
Section Map.
Context {T R : Type}.
Variable fn : T -> Exc R.

(** A future is pending ([None]) or holds what the call returned or
    raised. [submit_all] creates one future per task, in task order. *)
Definition submit_all (tasks : list T) : list (option (Exc R)) :=
  map (fun _ => None) tasks.

(** Some worker finishes task [i] and fills its future; a task runs
    once, so finishing a done or an unknown task changes nothing. *)
Definition finish (tasks : list T) (futures : list (option (Exc R))) (i : nat)
  : list (option (Exc R)) :=
  match tasks !! i, futures !! i with
  | Some t, Some None => <[i := Some (fn t)]> futures
  | _, _ => futures
  end.

(** The workers finish tasks in the order [schedule] names them. *)
Definition run (tasks : list T) (schedule : list nat) : list (option (Exc R)) :=
  fold_left (finish tasks) schedule (submit_all tasks).

(** [Future.result()]: the stored outcome; on a pending future the
    caller waits until a worker has run the task. *)
Definition result (t : T) (f : option (Exc R)) : Exc R :=
  match f with
  | Some r => r
  | None => fn t
  end.

(** The iterator of [Executor.map] yields [result()] of each future in
    the order of submission; the [for] loop of the caller appends them
    and stops at the first one that raises. *)
Fixpoint collect (tasks : list T) (futures : list (option (Exc R))) : Exc (list R) :=
  match tasks, futures with
  | t :: ts, f :: fs =>
      do r <- result t f; do rs <- collect ts fs; Return (r :: rs)
  | _, _ => Return []
  end.

Definition map_ (max_workers : Z) (tasks : list T) (schedule : list nat)
  : Exc (list R) :=
  if max_workers <=? 0
  then Raise (mkExn ValueError "max_workers must be greater than 0")
  else collect tasks (run tasks schedule).
End Map.
End Executor.

(** ** filefusion/cli.py *)

(** [r['status']] *)
Definition status (r : Result) : string :=
  match r with
  | Success _ _ _ _ _ => "success"
  | Skipped _ _ => "skipped"
  | Error _ _ => "error"
  end.

(** [r['file_path']], a key of every result. *)
Definition file_path_of (r : Result) : string :=
  match r with
  | Success p _ _ _ _ => p
  | Skipped p _ => p
  | Error p _ => p
  end.

Definition key_error (k : string) : Exn := mkExn KeyError k.

(** [r['metadata']], [r['header']], [r['content']], [r['footer']] and
    [r['reason']]: a [KeyError] on a result without the key. *)
Definition get_metadata (r : Result) : Exc Metadata :=
  match r with
  | Success _ m _ _ _ => Return m
  | _ => Raise (key_error "metadata")
  end.

Definition get_header (r : Result) : Exc string :=
  match r with
  | Success _ _ h _ _ => Return h
  | _ => Raise (key_error "header")
  end.

Definition get_content (r : Result) : Exc string :=
  match r with
  | Success _ _ _ c _ => Return c
  | _ => Raise (key_error "content")
  end.

Definition get_footer (r : Result) : Exc string :=
  match r with
  | Success _ _ _ _ f => Return f
  | _ => Raise (key_error "footer")
  end.

Definition get_reason (r : Result) : Exc string :=
  match r with
  | Skipped _ s => Return s
  | Error _ s => Return s
  | _ => Raise (key_error "reason")
  end.

Definition len {A} (l : list A) : Z := Z.of_nat (length l).

(** What [main] prints after writing: the four summary figures, the
    numbered sample of errors and the count of the errors not shown. *)
Record Summary := mkSummary {
  files_processed : Z;
  files_skipped : Z;
  files_errors : Z;
  summary_total_size : string;
  shown_errors : list (Z * string * string);
  more_errors : option Z
}.

(** A finished run: the collected results, the statistics, the strings
    written to the output file in order, and the printed summary. *)
Record Run := mkRun {
  run_results : list Result;
  run_stats : Stats;
  run_written : list string;
  run_summary : Summary
}.

Definition status_is (s : string) (r : Result) : bool := String.eqb (status r) s.

(** [for i, x in enumerate(l)] with the printed number [i + 1]. *)
Fixpoint enumerate1 {A} (i : Z) (l : list A) : list (Z * A) :=
  match l with
  | [] => []
  | a :: l' => (i + 1, a) :: enumerate1 (i + 1) l'
  end.

(** The three comprehensions under [# Filter results]. *)
Definition successful_of (results : list Result) : list Result :=
  List.filter (status_is "success") results.

Definition skipped_of (results : list Result) : list Result :=
  List.filter (status_is "skipped") results.

Definition errors_of (results : list Result) : list Result :=
  List.filter (status_is "error") results.

(** The block under [# Calculate statistics]. *)
Definition calculate_statistics (successful skipped errors : list Result)
  : Exc Stats :=
  do sizes <- mapM (fun r => do m <- get_metadata r; Return (m_size m)) successful;
  let total_size := Py.sum sizes in
  let total_size_str := get_human_readable_size total_size in
  Return {| processed := len successful;
            skipped := len skipped + len errors;
            errors := len errors;
            total_size := total_size;
            total_size_str := total_size_str |}.

(** The loop under [# Write each successful file]. *)
Definition write_files (outfile : list string) (successful : list Result)
  : Exc (list string) :=
  foldM (fun outfile r =>
           do h <- get_header r;
           do c <- get_content r;
           do f <- get_footer r;
           Return (write (write (write outfile h) c) f))
        successful outfile.

(** The block under [# Print summary]. *)
Definition print_summary (stats : Stats) (skipped errors : list Result)
  : Exc Summary :=
  do shown <-
     mapM (fun '(i, error) =>
             do reason <- get_reason error;
             Return (i, file_path_of error, reason))
          (enumerate1 0 (firstn 5 errors));
  Return {| files_processed := processed stats;
            files_skipped := len skipped;
            files_errors := len errors;
            summary_total_size := total_size_str stats;
            shown_errors := shown;
            more_errors := if 5 <? len errors then Some (len errors - 5) else None |}.

Definition comment_token (args : Args) : string :=
  if comment_style args =? 1 then "//" else "#".

(** [main]: the exit status and, unless the directory was refused, the
    run. [schedule] is the order in which the workers of the pool finish
    their tasks. *)
Definition main (w : World) (args : Args) (schedule : list nat)
  : Exc (Z * option Run) :=
  (* Validate directory path *)
  if negb (os_path_isdir w (path args)) then Return (1, None)
  else
    (* Set comment style *)
    let comment_style := comment_token args in
    (* Get all files *)
    do all_files <- get_all_files w (path args) (recursive args);
    (* Process files using multiple threads *)
    do results <-
       Executor.map_ (fun file_path => process_file w args file_path comment_style)
                     (workers args) all_files schedule;
    (* Filter results *)
    let successful := successful_of results in
    let skipped := skipped_of results in
    let errors := errors_of results in
    (* Calculate statistics *)
    do stats <- calculate_statistics successful skipped errors;
    (* Write output file *)
    do _ <- open_w w (output args);
    let outfile := write_output_header w [] args in
    do outfile <- write_files outfile successful;
    let outfile := write_output_footer outfile args stats in
    (* Print summary *)
    do summary <- print_summary stats skipped errors;
    Return (0, Some {| run_results := results; run_stats := stats;
                       run_written := outfile; run_summary := summary |}).

(** ** Worlds built from a directory listing

    A world in which one flat directory [root] holds the given files and
    nothing changes during the run, written from the working directory
    [cwd]. The examples below start from such a world and override single
    answers. *)

Module Disk.

Record File := mkFile { name : string; data : string; ctime : Z; mtime : Z }.

Definition find_file (root : string) (files : list File) (p : string) : option File :=
  find (fun f => String.eqb (Py.os_path_join root (name f)) p) files.

Definition enoent (p : string) : Exn :=
  mkExn OSError ("[Errno 2] No such file or directory: '" ++ p ++ "'").

Definition on_file {A} (root : string) (files : list File) (p : string)
    (k : File -> A) : Exc A :=
  match find_file root files p with
  | Some f => Return (k f)
  | None => Raise (enoent p)
  end.

Definition relpath (p start : string) : string :=
  let pre := (start ++ "/")%string in
  if String.prefix pre p
  then substring (String.length pre) (String.length p - String.length pre) p
  else p.

Definition world (cwd root : string) (files : list File) : World :=
  {| os_path_isdir := fun d => String.eqb d root;
     os_walk := fun d =>
       if String.eqb d root then [(root, [], map name files)] else [];
     os_listdir := fun d =>
       if String.eqb d root then Return (map name files) else Raise (enoent d);
     os_path_isfile := fun p => bool_decide (is_Some (find_file root files p));
     os_access_R := fun p => bool_decide (is_Some (find_file root files p));
     os_path_abspath := fun p =>
       if Py.startswith_slash p then p else Py.os_path_join cwd p;
     os_path_getsize := fun p =>
       on_file root files p (fun f => Z.of_nat (String.length (data f)));
     os_stat := fun p =>
       on_file root files p
         (fun f => mkStat (Z.of_nat (String.length (data f))) (ctime f) (mtime f));
     datetime_fromtimestamp := fun t =>
       Return ("1970-01-01 00:00:" ++ Py.two_digits (t mod 60))%string;
     os_path_relpath := fun p start => Return (relpath p start);
     open_rb := fun p => on_file root files p data;
     open_r := fun p => on_file root files p data;
     open_w := fun _ => Return tt;
     datetime_now := "2024-01-01 12:00:00" |}.

(** The defaults of [parse_arguments] for [--path root]. *)
Definition default_args (root : string) : Args :=
  {| path := root; include := None; exclude := None; max_size := None;
     include_binary := false; output := "combined_files.txt"; format := "text";
     comment_style := 2; recursive := true; workers := 32 |}.

End Disk.

(** [args] with another [max_size]. *)
Definition with_max_size (m : option Z) (args : Args) : Args :=
  {| path := path args; include := include args; exclude := exclude args;
     max_size := m; include_binary := include_binary args;
     output := output args; format := format args;
     comment_style := comment_style args; recursive := recursive args;
     workers := workers args |}.

(** ** Example runs *)

Module Examples.

(** One answer of a world replaced. *)
Definition with_os_stat (f : string -> Exc StatResult) (w : World) : World :=
  {| os_path_isdir := os_path_isdir w; os_walk := os_walk w;
     os_listdir := os_listdir w; os_path_isfile := os_path_isfile w;
     os_access_R := os_access_R w; os_path_abspath := os_path_abspath w;
     os_path_getsize := os_path_getsize w; os_stat := f;
     datetime_fromtimestamp := datetime_fromtimestamp w;
     os_path_relpath := os_path_relpath w; open_rb := open_rb w;
     open_r := open_r w; open_w := open_w w; datetime_now := datetime_now w |}.

Definition with_getsize (f : string -> Exc Z) (w : World) : World :=
  {| os_path_isdir := os_path_isdir w; os_walk := os_walk w;
     os_listdir := os_listdir w; os_path_isfile := os_path_isfile w;
     os_access_R := os_access_R w; os_path_abspath := os_path_abspath w;
     os_path_getsize := f; os_stat := os_stat w;
     datetime_fromtimestamp := datetime_fromtimestamp w;
     os_path_relpath := os_path_relpath w; open_rb := open_rb w;
     open_r := open_r w; open_w := open_w w; datetime_now := datetime_now w |}.

Definition with_open_r (f : string -> Exc string) (w : World) : World :=
  {| os_path_isdir := os_path_isdir w; os_walk := os_walk w;
     os_listdir := os_listdir w; os_path_isfile := os_path_isfile w;
     os_access_R := os_access_R w; os_path_abspath := os_path_abspath w;
     os_path_getsize := os_path_getsize w; os_stat := os_stat w;
     datetime_fromtimestamp := datetime_fromtimestamp w;
     os_path_relpath := os_path_relpath w; open_rb := open_rb w;
     open_r := f; open_w := open_w w; datetime_now := datetime_now w |}.

Definition with_exclude (e : option string) (args : Args) : Args :=
  {| path := path args; include := include args; exclude := e;
     max_size := max_size args; include_binary := include_binary args;
     output := output args; format := format args;
     comment_style := comment_style args; recursive := recursive args;
     workers := workers args |}.

Definition eacces (p : string) : Exn :=
  mkExn OSError ("[Errno 13] Permission denied: '" ++ p ++ "'").

(** The directory of the first scenario: two text files and one file of
    the bytes 00 01 02 between them. *)
Definition bytes_012 : string := String "000" (String "001" (String "002" EmptyString)).

Definition abc_files : list Disk.File :=
  [ Disk.mkFile "a.txt" "hello" 1 2;
    Disk.mkFile "b.bin" bytes_012 3 4;
    Disk.mkFile "c.log" "world" 5 6 ].

Definition abc_world : World := Disk.world "/home/u" "root" abc_files.

Definition abc_args : Args := with_exclude (Some ".bin") (Disk.default_args "root").

(** The workers finish the third file first, then the first, then the
    second. *)
Definition abc_schedule : list nat := [2; 0; 1]%nat.





Definition kb_args : Args := with_max_size (Some 1) (Disk.default_args "root").

(** [a.txt] can be listed and sampled, but [stat] on it fails. *)
Definition nostat_world : World :=
  with_os_stat (fun p => Raise (eacces p)) abc_world.

(** [a.txt] is there for [isfile] and [access], but gone for [getsize]. *)
Definition nosize_world : World :=
  with_getsize (fun p => Raise (Disk.enoent p)) abc_world.

(** The text-mode [open] of [a.txt] is refused. *)
Definition noread_world : World :=
  with_open_r (fun p => if String.eqb p "root/a.txt" then Raise (eacces p)
                        else open_r abc_world p) abc_world.

End Examples.

(** ** The filter as the specification words it

    Five rules, each of which a path passes or fails, tried in order; the
    first rule that fails rejects the path and no later rule is
    consulted. *)

Module FilterSpec.

(** The limit in bytes, when one is in force: the maximum is given in
    kilobytes, and a maximum of 0 counts as not set. *)
Definition limit_bytes (args : Args) : option Z :=
  match max_size args with
  | Some m => if m =? 0 then None else Some (m * 1024)
  | None => None
  end.





(** Rule 3: within the maximum size, when one is set. *)
Definition rule3 (w : World) (p : string) (args : Args) : Exc bool :=
  match limit_bytes args with
  | Some limit => do sz <- os_path_getsize w p; Return (sz <=? limit)
  | None => Return true
  end.







End FilterSpec.

(** ** Notions used to state the properties *)

(** Every future is pending or holds the outcome of its own task. *)
Definition consistent {T R} (fn : T -> Exc R) (tasks : list T)
    (futures : list (option (Exc R))) : Prop :=
  Forall2 (fun t f => f = None \/ f = Some (fn t)) tasks futures.

(** A file of the output body: the fields of a [Success] result. *)
Record Written := mkWritten {
  w_path : string;
  w_metadata : Metadata;
  w_header : string;
  w_content : string;
  w_footer : string
}.

Definition as_success (r : Result) : option Written :=
  match r with
  | Success p m h c f => Some (mkWritten p m h c f)
  | _ => None
  end.

(** The successes among the results, in the order of the results. *)
Fixpoint successes (results : list Result) : list Written :=
  match results with
  | [] => []
  | r :: rs =>
      match as_success r with
      | Some e => e :: successes rs
      | None => successes rs
      end
  end.

(** The strings of the output body: header, content and footer of each
    success. *)
Definition body_of (results : list Result) : list string :=
  flat_map (fun e => [w_header e; w_content e; w_footer e]) (successes results).

Definition count_status (s : string) (results : list Result) : Z :=
  len (List.filter (status_is s) results).

(** The variant of a result, read off its constructor. *)
Definition is_success (r : Result) : bool :=
  match r with Success _ _ _ _ _ => true | _ => false end.

Definition is_skipped (r : Result) : bool :=
  match r with Skipped _ _ => true | _ => false end.

Definition is_error (r : Result) : bool :=
  match r with Error _ _ => true | _ => false end.

Fixpoint count (f : Result -> bool) (results : list Result) : Z :=
  match results with
  | [] => 0
  | r :: rs => (if f r then 1 else 0) + count f rs
  end.

Definition stats_of (results : list Result) : Stats :=
  let total := Py.sum (map (fun e => m_size (w_metadata e)) (successes results)) in
  {| processed := count_status "success" results;
     skipped := count_status "skipped" results + count_status "error" results;
     errors := count_status "error" results;
     total_size := total;
     total_size_str := get_human_readable_size total |}.

Definition reason_of (r : Result) : string :=
  match r with
  | Skipped _ s => s
  | Error _ s => s
  | Success _ _ _ _ _ => EmptyString
  end.

Definition summary_of (results : list Result) : Summary :=
  let errors := errors_of results in
  {| files_processed := processed (stats_of results);
     files_skipped := count_status "skipped" results;
     files_errors := count_status "error" results;
     summary_total_size := total_size_str (stats_of results);
     shown_errors :=
       map (fun '(i, e) => (i, file_path_of e, reason_of e))
           (enumerate1 0 (firstn 5 errors));
     more_errors :=
       if 5 <? len errors then Some (len errors - 5) else None |}.

Definition run_of (w : World) (args : Args) (results : list Result) : Run :=
  {| run_results := results;
     run_stats := stats_of results;
     run_written :=
       write_output_footer (write_output_header w [] args ++ body_of results)
                           args (stats_of results);
     run_summary := summary_of results |}.

(** One call of the worker per discovered path, in discovery order. *)
Definition process_all (w : World) (args : Args) (files : list string)
  : Exc (list Result) :=
  mapM (fun file_path => process_file w args file_path (comment_token args)) files.

(** The [try] block of [process_file]: what it returns, or the exception
    that the [except Exception] clause turns into an error result. *)
Definition try_block (w : World) (args : Args) (file_path comment_style : string)
  : Exc Result :=
  let metadata := get_file_metadata w file_path in
  do hf <- build_file_header w file_path args metadata comment_style;
  match read_text w file_path with
  | Return content => Return (Success file_path metadata (fst hf) content (snd hf))
  | Raise e =>
      if is_unicode_error e then Return (Skipped file_path "encoding error")
      else Raise e
  end.

(** The paths of the successes are the discovered paths whose worker call
    succeeded, in discovery order. *)
Definition succeeds (w : World) (args : Args) (p : string) : bool :=
  match process_file w args p (comment_token args) with
  | Return (Success _ _ _ _ _) => true
  | _ => false
  end.

(** ** filefusion.py, the single-file script

    The script holds its own copy of every function; each is embedded
    again here from the text of the script. *)

Module Legacy.

Definition is_binary (w : World) (file_path : string) (sample_size : Z) : bool :=
  match open_rb w file_path with
  | Return data =>
      let chunk := Py.read_prefix sample_size data in
      if Py.contains_null chunk then true
      else if Py.decodes_utf8 chunk then false
      else true
  | Raise _ => true
  end.

Definition get_file_metadata (w : World) (file_path : string) : Metadata :=
  match
    (do stats <- os_stat w file_path;
     let size := st_size stats in
     do created <- datetime_fromtimestamp w (st_ctime stats);
     do modified <- datetime_fromtimestamp w (st_mtime stats);
     let size_str :=
       if 1024 * 1024 <? size then (Py.format_2f size (1024 * 1024) ++ " MB")%string
       else if 1024 <? size then (Py.format_2f size 1024 ++ " KB")%string
       else (Py.str_int size ++ " bytes")%string in
     Return {| m_size := size; m_size_str := size_str; m_created := created;
               m_modified := modified; m_error := None |})
  with
  | Return m => m
  | Raise e =>
      {| m_size := 0; m_size_str := "Unknown"; m_created := "Unknown";
         m_modified := "Unknown"; m_error := Some (exn_msg e) |}
  end.

Definition should_process_file (w : World) (file_path : string) (args : Args)
  : Exc bool :=
  if negb (os_path_isfile w file_path) || negb (os_access_R w file_path)
  then Return false
  else if String.eqb (os_path_abspath w file_path) (os_path_abspath w (output args))
  then Return false
  else
    do too_big <-
       match max_size args with
       | Some m =>
           if m =? 0 then Return false
           else do sz <- os_path_getsize w file_path; Return (m * 1024 <? sz)
       | None => Return false
       end;
    if too_big then Return false
    else if match include args with
            | Some inc =>
                negb (String.eqb inc EmptyString) &&
                negb (Py.any (fun ext => Py.endswith (Py.lower file_path) (Py.lower ext))
                             (map (fun ext => String "." (Py.lstrip "." ext))
                                  (Py.split "," inc)))
            | None => false
            end
    then Return false
    else if match exclude args with
            | Some exc =>
                negb (String.eqb exc EmptyString) &&
                Py.any (fun ext => Py.endswith (Py.lower file_path) (Py.lower ext))
                       (map (fun ext => String "." (Py.lstrip "." ext))
                            (Py.split "," exc))
            | None => false
            end
    then Return false
    else Return true.

(** The [if]/[elif] chain of [process_file] that binds [header] and
    [footer]; it has no [else], so under another format both names stay
    unbound ([None]). *)
Definition header_footer (args : Args) (metadata : Metadata)
    (comment_style rel_path : string) : option (string * string) :=
  let nl := String "010" EmptyString in
  if String.eqb (format args) "text" then
    Some ((line (comment_style ++ " File: " ++ rel_path) ++
           line (comment_style ++ " Size: " ++ m_size_str metadata) ++
           line (comment_style ++ " Created: " ++ m_created metadata) ++
           line (comment_style ++ " Modified: " ++ m_modified metadata) ++
           line (comment_style ++ " " ++ rule80))%string,
          (nl ++ nl)%string)
  else if String.eqb (format args) "md" then
    Some ((line ("## " ++ rel_path) ++ nl ++
           line ("- Size: " ++ m_size_str metadata) ++
           line ("- Created: " ++ m_created metadata) ++
           line ("- Modified: " ++ m_modified metadata) ++ nl ++
           line "```")%string,
          (line "```" ++ nl)%string)
  else if String.eqb (format args) "html" then
    Some ((line "<div class='file'>" ++
           line ("<h2>" ++ rel_path ++ "</h2>") ++
           line "<div class='metadata'>" ++
           line ("<p>Size: " ++ m_size_str metadata ++ "</p>") ++
           line ("<p>Created: " ++ m_created metadata ++ "</p>") ++
           line ("<p>Modified: " ++ m_modified metadata ++ "</p>") ++
           line "</div>" ++
           line "<pre><code>")%string,
          (line "</code></pre>" ++ line "</div>" ++ nl)%string)
  else None.

(** [UnboundLocalError] on reading the unbound [header]. *)
Definition unbound_header : Exn :=
  mkExn OtherError
        "cannot access local variable 'header' where it is not associated with a value".

Definition process_file (w : World) (args : Args) (file_path : string)
    (comment_style : string) : Exc Result :=
  do ok <- should_process_file w file_path args;
  if negb ok then
    Return (Skipped file_path "filtered out by rules")
  else if is_binary w file_path default_sample_size && negb (include_binary args) then
    Return (Skipped file_path "binary file")
  else
    match
      (let metadata := get_file_metadata w file_path in
       do rel_path <- os_path_relpath w file_path (path args);
       let hf := header_footer args metadata comment_style rel_path in
       match read_text w file_path with
       | Return content =>
           match hf with
           | Some (header, footer) =>
               Return (Success file_path metadata header content footer)
           | None => Raise unbound_header
           end
       | Raise e =>
           if is_unicode_error e then Return (Skipped file_path "encoding error")
           else Raise e
       end)
    with
    | Return r => Return r
    | Raise e => Return (Error file_path (exn_msg e))
    end.

Definition get_all_files (w : World) (directory : string) (recursive : bool)
  : Exc (list string) :=
  if recursive then
    Return (flat_map (fun '(root, _, files) =>
                        map (fun file => Py.os_path_join root file) files)
                     (os_walk w directory))
  else
    do items <- os_listdir w directory;
    Return (filter (fun item_path => os_path_isfile w item_path = true)
                   (map (fun item => Py.os_path_join directory item) items)).

Definition write_output_header (w : World) (outfile : list string) (args : Args)
  : list string :=
  let current_time := datetime_now w in
  let nl := String "010" EmptyString in
  if String.eqb (format args) "text" then
    let outfile := write outfile (line ("# Combined Files from " ++ path args)) in
    let outfile := write outfile (line ("# Generated on: " ++ current_time)) in
    write outfile (line ("# " ++ rule80) ++ nl)
  else if String.eqb (format args) "md" then
    let outfile := write outfile (line ("# Combined Files from " ++ path args) ++ nl) in
    let outfile := write outfile (line ("Generated on: " ++ current_time) ++ nl) in
    write outfile (line "---" ++ nl)
  else if String.eqb (format args) "html" then
    fold_left write
      [ line "<!DOCTYPE html>";
        line "<html lang='en'>";
        line "<head>";
        line "    <meta charset='UTF-8'>";
        line "    <meta name='viewport' content='width=device-width, initial-scale=1.0'>";
        line ("    <title>Combined Files from " ++ path args ++ "</title>");
        line "    <style>";
        line "        body { font-family: Arial, sans-serif; margin: 20px; }";
        line "        .file { margin-bottom: 30px; border: 1px solid #ddd; padding: 15px; border-radius: 5px; }";
        line "        .metadata { color: #666; margin-bottom: 10px; }";
        line "        h1 { color: #333; }";
        line "        h2 { color: #0066cc; }";
        line "        pre { background-color: #f5f5f5; padding: 10px; border-radius: 5px; overflow: auto; }";
        line "    </style>";
        line "</head>";
        line "<body>";
        line ("<h1>Combined Files from " ++ path args ++ "</h1>");
        (line ("<p>Generated on: " ++ current_time ++ "</p>") ++ nl)%string ]
      outfile
  else outfile.

Definition write_output_footer (outfile : list string) (args : Args) (stats : Stats)
  : list string :=
  if String.eqb (format args) "text" then
    fold_left write
      [ line ("# " ++ rule80);
        line "# Summary Statistics";
        line ("# Files processed: " ++ Py.str_int (processed stats));
        line ("# Files skipped: " ++ Py.str_int (skipped stats));
        line ("# Total size: " ++ total_size_str stats) ]
      outfile
  else if String.eqb (format args) "md" then
    fold_left write
      [ (line "## Summary Statistics" ++ String "010" EmptyString)%string;
        line ("- Files processed: " ++ Py.str_int (processed stats));
        line ("- Files skipped: " ++ Py.str_int (skipped stats));
        line ("- Total size: " ++ total_size_str stats) ]
      outfile
  else if String.eqb (format args) "html" then
    fold_left write
      [ line "<div class='summary'>";
        line "<h2>Summary Statistics</h2>";
        line ("<p>Files processed: " ++ Py.str_int (processed stats) ++ "</p>");
        line ("<p>Files skipped: " ++ Py.str_int (skipped stats) ++ "</p>");
        line ("<p>Total size: " ++ total_size_str stats ++ "</p>");
        line "</div>";
        line "</body>";
        line "</html>" ]
      outfile
  else outfile.

Definition main (w : World) (args : Args) (schedule : list nat)
  : Exc (Z * option Run) :=
  if negb (os_path_isdir w (path args)) then Return (1, None)
  else
    let comment_style := if comment_style args =? 1 then "//"%string else "#"%string in
    do all_files <- get_all_files w (path args) (recursive args);
    do results <-
       Executor.map_ (fun file_path => process_file w args file_path comment_style)
                     (workers args) all_files schedule;
    let successful := List.filter (status_is "success") results in
    let skipped := List.filter (status_is "skipped") results in
    let errors := List.filter (status_is "error") results in
    do sizes <- mapM (fun r => do m <- get_metadata r; Return (m_size m)) successful;
    let total_size := Py.sum sizes in
    let total_size_str :=
      if 1024 * 1024 <? total_size
      then (Py.format_2f total_size (1024 * 1024) ++ " MB")%string
      else if 1024 <? total_size then (Py.format_2f total_size 1024 ++ " KB")%string
      else (Py.str_int total_size ++ " bytes")%string in
    let stats :=
      {| processed := len successful;
         skipped := len skipped + len errors;
         errors := len errors;
         total_size := total_size;
         total_size_str := total_size_str |} in
    do _ <- open_w w (output args);
    let outfile := write_output_header w [] args in
    do outfile <-
       foldM (fun outfile r =>
                do h <- get_header r;
                do c <- get_content r;
                do f <- get_footer r;
                Return (write (write (write outfile h) c) f))
             successful outfile;
    let outfile := write_output_footer outfile args stats in
    do shown <-
       mapM (fun '(i, error) =>
               do reason <- get_reason error;
               Return (i, file_path_of error, reason))
            (enumerate1 0 (firstn 5 errors));
    let summary :=
      {| files_processed := processed stats;
         files_skipped := len skipped;
         files_errors := len errors;
         summary_total_size := total_size_str;
         shown_errors := shown;
         more_errors := if 5 <? len errors then Some (len errors - 5) else None |} in
    Return (0, Some {| run_results := results; run_stats := stats;
                       run_written := outfile; run_summary := summary |}).

End Legacy.

(** ** filefusion-v0.py, the first script *)

Module V0.

(** The state of the loop: the output file and the two counters. *)
Record State := mkState {
  outfile : list string;
  files_processed : Z;
  files_skipped : Z
}.

(** The body of the inner [for] loop for one file of the walk. *)
Definition visit (w : World) (comment output_file : string) (st : State)
    (file_path : string) : State :=
  (* Skip the output file itself *)
  if String.eqb (os_path_abspath w file_path) (os_path_abspath w output_file)
  then st
  else
    match read_text w file_path with
    | Return content =>
        let out := write (outfile st) (line (comment ++ " " ++ file_path)) in
        let out := write out content in
        let out := write out (String "010" (String "010" EmptyString)) in
        {| outfile := out; files_processed := files_processed st + 1;
           files_skipped := files_skipped st |}
    | Raise e =>
        let out :=
          write (outfile st)
                (line (comment ++ " ERROR: Could not read " ++ file_path)
                 ++ String "010" EmptyString) in
        {| outfile := out; files_processed := files_processed st;
           files_skipped := files_skipped st + 1 |}
    end.

(** The files of the walk, in the order of the two nested loops. *)
Definition walked (w : World) (dir_path : string) : list string :=
  flat_map (fun '(root, _, files) =>
              map (fun file => Py.os_path_join root file) files)
           (os_walk w dir_path).

(** [main], given the two lines typed at its prompts; [None] when the
    directory is refused. *)
Definition main (w : World) (dir_path comment_style : string) : Exc (option State) :=
  if negb (os_path_isdir w dir_path) then Return None
  else
    let comment := if String.eqb comment_style "1" then "//"%string else "#"%string in
    let output_file := "combined_files.txt"%string in
    do _ <- open_w w output_file;
    Return (Some (fold_left (visit w comment output_file) (walked w dir_path)
                            {| outfile := []; files_processed := 0;
                               files_skipped := 0 |})).

End V0.

(** A world at another moment: only the clock differs. *)
Definition with_datetime_now (t : string) (w : World) : World :=
  {| os_path_isdir := os_path_isdir w; os_walk := os_walk w;
     os_listdir := os_listdir w; os_path_isfile := os_path_isfile w;
     os_access_R := os_access_R w; os_path_abspath := os_path_abspath w;
     os_path_getsize := os_path_getsize w; os_stat := os_stat w;
     datetime_fromtimestamp := datetime_fromtimestamp w;
     os_path_relpath := os_path_relpath w; open_rb := open_rb w;
     open_r := open_r w; open_w := open_w w; datetime_now := t |}.

(** The formats that [--format] admits. *)
Definition known_format (args : Args) : Prop :=
  format args = "text"%string \/ format args = "md"%string
  \/ format args = "html"%string.

(** * Properties *)

(** ** The monad and the loops *)

Lemma bind_Return {A B} (m : Exc A) (k : A -> Exc B) (b : B) :
  bind m k = Return b -> exists a, m = Return a /\ k a = Return b.
Proof. destruct m as [a|e]; simpl; [eauto | discriminate]. Qed.

Lemma mapM_Forall2 {A B} (f : A -> Exc B) (l : list A) (bs : list B) :
  mapM f l = Return bs <-> Forall2 (fun a b => f a = Return b) l bs.
Proof.
  revert bs. induction l as [|a l IH]; intros bs; simpl.
  - split.
    + intros [= <-]. constructor.
    + intros H. inversion H. reflexivity.
  - split.
    + intros H. apply bind_Return in H as (b & Hb & H).
      apply bind_Return in H as (bs' & Hbs & [= <-]).
      constructor; [exact Hb | apply IH, Hbs].
    + intros H. inversion H as [|? b ? bs' Hb Hrest]; subst.
      rewrite Hb. simpl. apply IH in Hrest. rewrite Hrest. reflexivity.
Qed.

Lemma mapM_total {A B} (f : A -> Exc B) (g : A -> B) (l : list A) :
  Forall (fun a => f a = Return (g a)) l -> mapM f l = Return (map g l).
Proof.
  induction 1 as [|a l Ha _ IH]; simpl; [reflexivity|].
  rewrite Ha. simpl. rewrite IH. reflexivity.
Qed.

(** ** The pool returns results in the order of submission *)

Module ExecutorFacts.
Section Map.
Context {T R : Type}.
Variable fn : T -> Exc R.

Lemma submit_all_consistent tasks :
  consistent fn tasks (Executor.submit_all (R:=R) tasks).
Proof.
  unfold consistent, Executor.submit_all.
  induction tasks; simpl; constructor; auto.
Qed.

Lemma finish_consistent tasks futures i :
  consistent fn tasks futures -> consistent fn tasks (Executor.finish fn tasks futures i).
Proof.
  unfold consistent, Executor.finish. intros H.
  destruct (tasks !! i) as [t|] eqn:Ht; [|exact H].
  destruct (futures !! i) as [[r|]|] eqn:Hf; try exact H.
  rewrite <- (list_insert_id tasks i t Ht).
  apply Forall2_insert; [exact H | right; reflexivity].
Qed.

Lemma run_consistent tasks schedule :
  consistent fn tasks (Executor.run fn tasks schedule).
Proof.
  unfold Executor.run.
  generalize (submit_all_consistent tasks).
  generalize (Executor.submit_all (R:=R) tasks) as futures.
  induction schedule as [|i schedule IH]; intros futures H; simpl.
  - exact H.
  - apply IH, finish_consistent, H.
Qed.

Lemma collect_consistent tasks futures :
  consistent fn tasks futures -> Executor.collect fn tasks futures = mapM fn tasks.
Proof.
  induction 1 as [|t f tasks futures Hf _ IH]; simpl; [reflexivity|].
  rewrite IH. destruct Hf as [-> | ->]; reflexivity.
Qed.

Lemma map_in_order max_workers tasks schedule :
  0 < max_workers ->
  Executor.map_ fn max_workers tasks schedule = mapM fn tasks.
Proof.
  intros Hw. unfold Executor.map_.
  destruct (Z.leb_spec max_workers 0) as [Hle|_]; [lia|].
  apply collect_consistent, run_consistent.
Qed.

Lemma map_schedule_irrelevant max_workers tasks schedule schedule' :
  Executor.map_ fn max_workers tasks schedule =
  Executor.map_ fn max_workers tasks schedule'.
Proof.
  unfold Executor.map_. destruct (max_workers <=? 0); [reflexivity|].
  rewrite !collect_consistent by apply run_consistent. reflexivity.
Qed.
End Map.
End ExecutorFacts.

(** ** What a run computes from its results *)

Lemma sizes_of_successful results :
  mapM (fun r => do m <- get_metadata r; Return (m_size m)) (successful_of results)
  = Return (map (fun e => m_size (w_metadata e)) (successes results)).
Proof.
  unfold successful_of.
  induction results as [|r rs IH]; simpl; [reflexivity|].
  destruct r; simpl; rewrite IH; reflexivity.
Qed.

Lemma calculate_statistics_of results :
  calculate_statistics (successful_of results) (skipped_of results) (errors_of results)
  = Return (stats_of results).
Proof.
  unfold calculate_statistics. rewrite sizes_of_successful. reflexivity.
Qed.

Lemma write_files_of results : forall outfile,
  write_files outfile (successful_of results) = Return (outfile ++ body_of results).
Proof.
  unfold write_files, body_of, successful_of.
  induction results as [|r rs IH]; intros outfile; simpl.
  - rewrite app_nil_r. reflexivity.
  - destruct r; simpl; rewrite IH; [|reflexivity..].
    unfold write. rewrite <- !app_assoc. reflexivity.
Qed.

Lemma shown_errors_of (errs : list Result) : forall i,
  Forall (fun r => status_is "error" r = true) errs ->
  mapM (fun '(i, error) =>
          do reason <- get_reason error;
          Return (i, file_path_of error, reason))
       (enumerate1 i errs)
  = Return (map (fun '(i, e) => (i, file_path_of e, reason_of e)) (enumerate1 i errs)).
Proof.
  induction errs as [|r errs IH]; intros i H; simpl; [reflexivity|].
  inversion H as [|? ? Hr Hrest]; subst.
  destruct r; try discriminate Hr. simpl.
  rewrite (IH _ Hrest). reflexivity.
Qed.

Lemma errors_of_status results :
  Forall (fun r => status_is "error" r = true) (errors_of results).
Proof.
  unfold errors_of. apply List.Forall_forall. intros r Hr.
  apply List.filter_In in Hr. apply Hr.
Qed.

Lemma print_summary_of results :
  print_summary (stats_of results) (skipped_of results) (errors_of results)
  = Return (summary_of results).
Proof.
  unfold print_summary. rewrite shown_errors_of; [reflexivity|].
  apply Forall_take, errors_of_status.
Qed.

(** [main] without the pool: the schedule has no part in the outcome. *)
Lemma main_sequential w args schedule :
  main w args schedule =
  if negb (os_path_isdir w (path args)) then Return (1, None)
  else
    do all_files <- get_all_files w (path args) (recursive args);
    if workers args <=? 0
    then Raise (mkExn ValueError "max_workers must be greater than 0")
    else
      do results <- process_all w args all_files;
      do _ <- open_w w (output args);
      Return (0, Some (run_of w args results)).
Proof.
  unfold main. destruct (negb (os_path_isdir w (path args))); [reflexivity|].
  destruct (get_all_files w (path args) (recursive args)) as [files|e]; simpl;
    [|reflexivity].
  destruct (Z.leb_spec (workers args) 0) as [Hle|Hlt].
  - unfold Executor.map_. destruct (Z.leb_spec (workers args) 0); [reflexivity|lia].
  - rewrite ExecutorFacts.map_in_order by exact Hlt.
    fold (process_all w args files).
    destruct (process_all w args files) as [results|e]; simpl; [|reflexivity].
    rewrite calculate_statistics_of. simpl.
    destruct (open_w w (output args)) as [[]|e]; simpl; [|reflexivity].
    rewrite write_files_of. simpl.
    rewrite print_summary_of. reflexivity.
Qed.

Lemma main_inv w args schedule code run :
  main w args schedule = Return (code, Some run) ->
  code = 0 /\
  exists files,
    get_all_files w (path args) (recursive args) = Return files /\
    process_all w args files = Return (run_results run) /\
    run = run_of w args (run_results run).
Proof.
  rewrite main_sequential.
  destruct (negb (os_path_isdir w (path args))); [discriminate|].
  destruct (get_all_files w (path args) (recursive args)) as [files|e] eqn:Hfiles;
    simpl; [|discriminate].
  destruct (workers args <=? 0); [discriminate|].
  destruct (process_all w args files) as [results|e] eqn:Hres; simpl; [|discriminate].
  destruct (open_w w (output args)) as [[]|e]; simpl; [|discriminate].
  intros [= <- <-]. split; [reflexivity|].
  exists files. simpl. auto.
Qed.

Lemma fold_write (l outfile : list string) : fold_left write l outfile = outfile ++ l.
Proof.
  revert outfile. induction l as [|s l IH]; intros outfile; simpl.
  - rewrite app_nil_r. reflexivity.
  - rewrite IH. unfold write. rewrite <- app_assoc. reflexivity.
Qed.

Lemma write_output_footer_app outfile args stats :
  write_output_footer outfile args stats
  = outfile ++ write_output_footer [] args stats.
Proof.
  unfold write_output_footer.
  repeat match goal with |- context [if ?b then _ else _] => destruct b end;
    rewrite ?fold_write, ?app_nil_r; reflexivity.
Qed.

(** The document: header, then the body, then the footer. *)
Lemma run_written_of w args results :
  run_written (run_of w args results)
  = write_output_header w [] args ++ body_of results
    ++ write_output_footer [] args (stats_of results).
Proof. simpl. rewrite write_output_footer_app, app_assoc. reflexivity. Qed.

(** ** The filter *)









(** ** Strings: suffixes and case *)

Section Strings.
Local Open Scope string_scope.
Local Open Scope nat_scope.

Lemma length_app (a b : string) :
  String.length (a ++ b) = String.length a + String.length b.
Proof. induction a as [|c a IH]; simpl; [reflexivity | rewrite IH; reflexivity]. Qed.






Lemma lower_lower_char (c : ascii) : Py.lower_char (Py.lower_char c) = Py.lower_char c.
Proof. destruct c as [[] [] [] [] [] [] [] []]; reflexivity. Qed.


Lemma lower_lower (s : string) : Py.lower (Py.lower s) = Py.lower s.
Proof.
  induction s as [|c s IH]; simpl; [reflexivity|].
  rewrite lower_lower_char, IH. reflexivity.
Qed.



End Strings.

(** ** One worker call *)

Lemma process_file_unfold w args p cs :
  process_file w args p cs =
  do ok <- should_process_file w p args;
  if negb ok then Return (Skipped p "filtered out by rules")
  else if is_binary w p default_sample_size && negb (include_binary args)
  then Return (Skipped p "binary file")
  else match try_block w args p cs with
       | Return r => Return r
       | Raise e => Return (Error p (exn_msg e))
       end.
Proof. reflexivity. Qed.

(** A rejected path is skipped before the file is opened. *)
Lemma process_file_filtered w args p cs :
  should_process_file w p args = Return false ->
  process_file w args p cs = Return (Skipped p "filtered out by rules").
Proof. intros H. rewrite process_file_unfold, H. reflexivity. Qed.

(** The worker raises exactly when the filter does. *)
Lemma process_file_raises w args p cs e :
  process_file w args p cs = Raise e <-> should_process_file w p args = Raise e.
Proof.
  rewrite process_file_unfold.
  destruct (should_process_file w p args) as [[|]|e']; simpl.
  - destruct (is_binary w p default_sample_size && negb (include_binary args));
      [split; discriminate|].
    destruct (try_block w args p cs); split; discriminate.
  - split; discriminate.
  - split; intros [= ->]; reflexivity.
Qed.

Lemma try_block_path w args p cs r :
  try_block w args p cs = Return r -> file_path_of r = p.
Proof.
  unfold try_block.
  destruct (build_file_header w p args (get_file_metadata w p) cs) as [hf|e];
    simpl; [|discriminate].
  destruct (read_text w p) as [content|e].
  - intros [= <-]. reflexivity.
  - destruct (is_unicode_error e); [|discriminate]. intros [= <-]. reflexivity.
Qed.

(** Every result carries the path it was computed for. *)
Lemma process_file_path w args p cs r :
  process_file w args p cs = Return r -> file_path_of r = p.
Proof.
  rewrite process_file_unfold.
  destruct (should_process_file w p args) as [[|]|e]; simpl; [| |discriminate].
  - destruct (is_binary w p default_sample_size && negb (include_binary args)).
    + intros [= <-]. reflexivity.
    + destruct (try_block w args p cs) as [r'|e] eqn:E.
      * intros [= <-]. eapply try_block_path, E.
      * intros [= <-]. reflexivity.
  - intros [= <-]. reflexivity.
Qed.

Lemma successes_paths w args files results :
  process_all w args files = Return results ->
  map w_path (successes results) = List.filter (succeeds w args) files.
Proof.
  unfold process_all. rewrite mapM_Forall2.
  induction 1 as [|p r files results Hp _ IH]; simpl; [reflexivity|].
  unfold succeeds at 1. rewrite Hp.
  pose proof (process_file_path _ _ _ _ _ Hp) as Hpath.
  destruct r; simpl in *; subst; rewrite IH; reflexivity.
Qed.

Lemma successes_processed w args files results e :
  process_all w args files = Return results ->
  In e (successes results) ->
  In (w_path e) files /\
  process_file w args (w_path e) (comment_token args)
  = Return (Success (w_path e) (w_metadata e) (w_header e) (w_content e) (w_footer e)).
Proof.
  unfold process_all. rewrite mapM_Forall2.
  induction 1 as [|p r files results Hp _ IH]; simpl; [intros []|].
  pose proof (process_file_path _ _ _ _ _ Hp) as Hpath.
  destruct r; simpl in *; subst.
  - intros [<- | Hin]; simpl.
    + split; [left; reflexivity | exact Hp].
    + destruct (IH Hin) as [H1 H2]. split; [right; exact H1 | exact H2].
  - intros Hin. destruct (IH Hin) as [H1 H2]. split; [right; exact H1 | exact H2].
  - intros Hin. destruct (IH Hin) as [H1 H2]. split; [right; exact H1 | exact H2].
Qed.

(** ** The claims about the filter *)




(** C10: a maximum size of 0 switches the size rule off. Whatever the
    size of the file, and even when its size cannot be read, rule 3 passes
    and the filter answers as it does without a maximum. *)
Theorem max_size_zero_disables_limit (w : World) (p : string) (args : Args) :
  over_max_size w p (with_max_size (Some 0) args) = Return false
  /\ FilterSpec.rule3 w p (with_max_size (Some 0) args) = Return true
  /\ should_process_file w p (with_max_size (Some 0) args)
     = should_process_file w p (with_max_size None args).
Proof.
  split; [reflexivity|]. split; [reflexivity|].
  unfold should_process_file.
  destruct (missing_or_unreadable w p); [reflexivity|].
  reflexivity.
Qed.

(** A path is in the output body only if its worker call succeeded. *)
Lemma written_paths_succeed w args schedule code run p :
  main w args schedule = Return (code, Some run) ->
  In p (map w_path (successes (run_results run))) ->
  succeeds w args p = true.
Proof.
  intros Hmain Hin.
  apply main_inv in Hmain as (_ & files & _ & Hall & _).
  rewrite (successes_paths _ _ _ _ Hall) in Hin.
  apply List.filter_In in Hin. apply Hin.
Qed.




(** ** The claims about the statistics and the document *)

Lemma len_filter_count (s : string) (f : Result -> bool) results :
  (forall r, status_is s r = f r) ->
  len (List.filter (status_is s) results) = count f results.
Proof.
  intros Hf. unfold len.
  induction results as [|r rs IH]; simpl; [reflexivity|].
  rewrite Hf. destruct (f r); simpl length; lia.
Qed.

Lemma count_status_success results : count_status "success" results = count is_success results.
Proof. apply len_filter_count. intros []; reflexivity. Qed.

Lemma count_status_skipped results : count_status "skipped" results = count is_skipped results.
Proof. apply len_filter_count. intros []; reflexivity. Qed.

Lemma count_status_error results : count_status "error" results = count is_error results.
Proof. apply len_filter_count. intros []; reflexivity. Qed.

(** C2, as the code has it: the [skipped] statistic is the number of
    skipped results plus the number of error results, for every mix of
    results; the [errors] statistic counts the error results only, and the
    printed summary of a run shows the skipped results without the
    errors. *)
Theorem skipped_statistic_includes_errors :
  (forall results,
     exists stats,
       calculate_statistics (successful_of results) (skipped_of results)
                            (errors_of results) = Return stats
       /\ processed stats = count is_success results
       /\ skipped stats = count is_skipped results + count is_error results
       /\ errors stats = count is_error results)
  /\ (forall w args schedule code run,
        main w args schedule = Return (code, Some run) ->
        skipped (run_stats run)
        = count is_skipped (run_results run) + count is_error (run_results run)
        /\ errors (run_stats run) = count is_error (run_results run)
        /\ files_skipped (run_summary run) = count is_skipped (run_results run)
        /\ files_errors (run_summary run) = count is_error (run_results run)).
Proof.
  split.
  - intros results. exists (stats_of results).
    split; [apply calculate_statistics_of|]. simpl.
    rewrite count_status_success, count_status_skipped, count_status_error. auto.
  - intros w args schedule code run Hmain.
    apply main_inv in Hmain as (_ & files & _ & _ & Hrun).
    rewrite Hrun. simpl.
    rewrite count_status_skipped, count_status_error. auto.
Qed.

Lemma skipped_statistic_includes_errors_witness :
  exists run,
    main Examples.noread_world Examples.abc_args Examples.abc_schedule
    = Return (0, Some run)
    /\ (skipped (run_stats run)
        = count is_skipped (run_results run) + count is_error (run_results run)
        /\ errors (run_stats run) = count is_error (run_results run)
        /\ files_skipped (run_summary run) = count is_skipped (run_results run)
        /\ files_errors (run_summary run) = count is_error (run_results run)).
Proof.
  eexists. split; [vm_compute; reflexivity|].
  eapply (proj2 skipped_statistic_includes_errors
            Examples.noread_world Examples.abc_args Examples.abc_schedule).
  vm_compute; reflexivity.
Defined.

(** C2 as stated fails: in a run with one error result and one skipped
    result the [skipped] statistic is 2. *)
Lemma skipped_statistic_is_not_skips_only :
  exists run,
    main Examples.noread_world Examples.abc_args [] = Return (0, Some run)
    /\ count is_skipped (run_results run) = 1
    /\ count is_error (run_results run) = 1
    /\ skipped (run_stats run) = 2.
Proof.
  eexists. split; [vm_compute; reflexivity|].
  repeat split; vm_compute; reflexivity.
Qed.

Lemma footer_reports_total_size args stats :
  (format args = "text"%string ->
   In (line ("# Total size: " ++ total_size_str stats)) (write_output_footer [] args stats))
  /\ (format args = "md"%string ->
      In (line ("- Total size: " ++ total_size_str stats)) (write_output_footer [] args stats))
  /\ (format args = "html"%string ->
      In (line ("<p>Total size: " ++ total_size_str stats ++ "</p>"))
         (write_output_footer [] args stats)).
Proof.
  unfold write_output_footer.
  repeat split; intros ->; simpl; unfold write; simpl; auto 10.
Qed.

(** C4: the total size of a run is the sum of the [size] field of the
    metadata over the successes, and the successes are exactly the files
    whose header, content and footer make the output body between the
    document header and the document footer; the footer shows that total
    in its readable form. *)
Theorem total_size_sums_written_files (w : World) (args : Args)
    (schedule : list nat) (code : Z) (run : Run) :
  main w args schedule = Return (code, Some run) ->
  let written := successes (run_results run) in
  total_size (run_stats run) = Py.sum (map (fun e => m_size (w_metadata e)) written)
  /\ run_written run
     = write_output_header w [] args
       ++ flat_map (fun e => [w_header e; w_content e; w_footer e]) written
       ++ write_output_footer [] args (run_stats run)
  /\ total_size_str (run_stats run) = get_human_readable_size (total_size (run_stats run))
  /\ (format args = "text"%string ->
      In (line ("# Total size: " ++ total_size_str (run_stats run))) (run_written run)).
Proof.
  intros Hmain written. subst written.
  apply main_inv in Hmain as (_ & files & _ & _ & Hrun).
  rewrite Hrun. rewrite run_written_of. simpl.
  repeat split.
  intros Hfmt. apply in_or_app. right. apply in_or_app. right.
  exact (proj1 (footer_reports_total_size args (stats_of (run_results run))) Hfmt).
Qed.

Lemma total_size_sums_written_files_witness :
  exists run,
    main Examples.abc_world Examples.abc_args Examples.abc_schedule
    = Return (0, Some run)
    /\ total_size (run_stats run) = 10
    /\ map (fun e => (w_path e, m_size (w_metadata e))) (successes (run_results run))
       = [("root/a.txt"%string, 5); ("root/c.log"%string, 5)]
    /\ In (line "# Total size: 10 bytes") (run_written run).
Proof.
  eexists. split; [vm_compute; reflexivity|].
  match goal with
  | |- context [run_stats ?r] =>
      pose proof (total_size_sums_written_files Examples.abc_world Examples.abc_args
                    Examples.abc_schedule 0 r ltac:(vm_compute; reflexivity))
        as (Htotal & _ & _ & Hfooter)
  end.
  split; [rewrite Htotal; vm_compute; reflexivity|].
  split; [vm_compute; reflexivity|].
  apply Hfooter. reflexivity.
Defined.

(** C3: the pool hands the results back in the order of submission
    whatever the order in which the workers finish, so a run does not
    depend on the schedule; its results stand in discovery order, one per
    discovered path, and the output body lists the successful files in
    that order: the discovered paths with the unsuccessful ones left
    out. *)
Theorem output_body_in_discovery_order :
  (forall (T R : Type) (fn : T -> Exc R) (max_workers : Z)
          (tasks : list T) (schedule : list nat),
     0 < max_workers ->
     Executor.map_ fn max_workers tasks schedule = mapM fn tasks)
  /\ (forall w args schedule schedule',
        main w args schedule = main w args schedule')
  /\ (forall w args schedule code run,
        main w args schedule = Return (code, Some run) ->
        exists files,
          get_all_files w (path args) (recursive args) = Return files
          /\ Forall2 (fun p r => process_file w args p (comment_token args) = Return r
                                 /\ file_path_of r = p)
                     files (run_results run)
          /\ map w_path (successes (run_results run))
             = List.filter (succeeds w args) files
          /\ run_written run
             = write_output_header w [] args
               ++ flat_map (fun e => [w_header e; w_content e; w_footer e])
                           (successes (run_results run))
               ++ write_output_footer [] args (run_stats run)).
Proof.
  split; [intros; apply ExecutorFacts.map_in_order; assumption|].
  split; [intros; rewrite !main_sequential; reflexivity|].
  intros w args schedule code run Hmain.
  apply main_inv in Hmain as (_ & files & Hfiles & Hall & Hrun).
  exists files. split; [exact Hfiles|].
  split.
  - unfold process_all in Hall. apply mapM_Forall2 in Hall.
    eapply Forall2_impl; [exact Hall|].
    intros p r Hp. split; [exact Hp | eapply process_file_path, Hp].
  - split; [eapply successes_paths, Hall|].
    rewrite Hrun at 1. rewrite run_written_of.
    rewrite Hrun. reflexivity.
Qed.

Lemma output_body_in_discovery_order_witness :
  exists run,
    main Examples.abc_world Examples.abc_args Examples.abc_schedule
    = Return (0, Some run)
    /\ exists files,
         get_all_files Examples.abc_world "root" true = Return files
         /\ files = ["root/a.txt"; "root/b.bin"; "root/c.log"]%string
         /\ map w_path (successes (run_results run))
            = List.filter (succeeds Examples.abc_world Examples.abc_args) files
         /\ map w_path (successes (run_results run))
            = ["root/a.txt"; "root/c.log"]%string.
Proof.
  eexists. split; [vm_compute; reflexivity|].
  match goal with
  | |- context [run_results ?r] =>
      destruct (proj2 (proj2 output_body_in_discovery_order)
                  Examples.abc_world Examples.abc_args Examples.abc_schedule 0 r
                  ltac:(vm_compute; reflexivity))
        as (files & Hfiles & _ & Hpaths & _)
  end.
  exists files. split; [exact Hfiles|].
  split; [vm_compute in Hfiles; congruence|].
  split; [exact Hpaths|].
  vm_compute; reflexivity.
Defined.

(** ** The claims about one worker call *)



Lemma contains_null_In (s : string) :
  Py.contains_null s = true <-> In zero (list_ascii_of_string s).
Proof.
  induction s as [|c s IH]; simpl; [split; [discriminate | intros []]|].
  rewrite orb_true_iff, IH, Ascii.eqb_eq. split; intros [H|H]; auto.
Qed.

Lemma substring_prefix (s : string) : forall n,
  exists rest, s = (substring 0 n s ++ rest)%string.
Proof.
  induction s as [|c s IH]; intros [|n]; simpl.
  - exists EmptyString. reflexivity.
  - exists EmptyString. reflexivity.
  - exists (String c s). reflexivity.
  - destruct (IH n) as [rest Hrest]. exists rest.
    change (String c s = String c (substring 0 n s ++ rest)). f_equal. exact Hrest.
Qed.

Lemma substring_prefix_length (s : string) : forall n,
  String.length (substring 0 n s) = Nat.min n (String.length s).
Proof.
  induction s as [|c s IH]; intros [|n]; simpl; try reflexivity.
  rewrite IH. reflexivity.
Qed.

(** C7: with the file open, [is_binary] answers true exactly when the
    sample, the first 8192 bytes of the file or all of it when it is
    shorter, holds a null byte or is not strict UTF-8; when the file
    cannot be opened or read, it answers true. *)
Theorem is_binary_null_or_undecodable (w : World) (p : string) :
  (forall data,
     open_rb w p = Return data ->
     let sample := Py.read_prefix default_sample_size data in
     (exists rest, data = (sample ++ rest)%string)
     /\ String.length sample = Nat.min (Z.to_nat 8192) (String.length data)
     /\ (is_binary w p default_sample_size = true <->
         In zero (list_ascii_of_string sample) \/ Py.decodes_utf8 sample = false))
  /\ (forall e, open_rb w p = Raise e -> is_binary w p default_sample_size = true).
Proof.
  split.
  - intros data Hdata sample. subst sample.
    unfold is_binary. rewrite Hdata.
    unfold Py.read_prefix, default_sample_size.
    change (8192 <? 0) with false. cbv iota.
    split; [apply substring_prefix|].
    split; [apply substring_prefix_length|].
    rewrite <- contains_null_In.
    destruct (Py.contains_null _); [split; auto|].
    destruct (Py.decodes_utf8 _).
    + split; [discriminate | intros [H|H]; discriminate H].
    + split; auto.
  - intros e He. unfold is_binary. rewrite He. reflexivity.
Qed.

Lemma is_binary_null_or_undecodable_witness :
  open_rb Examples.abc_world "root/b.bin" = Return Examples.bytes_012
  /\ Py.read_prefix default_sample_size Examples.bytes_012 = Examples.bytes_012
  /\ (is_binary Examples.abc_world "root/b.bin" default_sample_size = true <->
      In zero (list_ascii_of_string Examples.bytes_012)
      \/ Py.decodes_utf8 Examples.bytes_012 = false)
  /\ is_binary Examples.abc_world "root/missing" default_sample_size = true.
Proof.
  split; [vm_compute; reflexivity|].
  split; [vm_compute; reflexivity|].
  split.
  - apply (proj1 (is_binary_null_or_undecodable Examples.abc_world "root/b.bin")
             Examples.bytes_012).
    vm_compute; reflexivity.
  - apply (proj2 (is_binary_null_or_undecodable Examples.abc_world "root/missing")
             (Disk.enoent "root/missing")).
    vm_compute; reflexivity.
Defined.

Lemma get_file_metadata_stat_failure w p e :
  os_stat w p = Raise e -> get_file_metadata w p = unknown_metadata e.
Proof. intros H. unfold get_file_metadata. rewrite H. reflexivity. Qed.

(** C8, as the code has it: whenever the filter itself returns, one
    worker call returns exactly one result for its path. A rejected path
    and a binary file are skipped; an exception while the header is built
    or the content is read becomes an error result with the text of the
    exception, except a decoding error, which becomes a skip; a failure
    of [stat] is absorbed by the metadata reader into the fallback
    dictionary and does not make an error result. *)
Theorem process_file_returns_one_result (w : World) (args : Args) (p cs : string)
    (ok : bool) :
  should_process_file w p args = Return ok ->
  exists r,
    process_file w args p cs = Return r
    /\ file_path_of r = p
    /\ (if negb ok then r = Skipped p "filtered out by rules"
        else if is_binary w p default_sample_size && negb (include_binary args)
        then r = Skipped p "binary file"
        else
          match build_file_header w p args (get_file_metadata w p) cs with
          | Raise e => r = Error p (exn_msg e)
          | Return hf =>
              match read_text w p with
              | Return content =>
                  r = Success p (get_file_metadata w p) (fst hf) content (snd hf)
              | Raise e =>
                  if is_unicode_error e then r = Skipped p "encoding error"
                  else r = Error p (exn_msg e)
              end
          end)
    /\ (forall e, os_stat w p = Raise e -> get_file_metadata w p = unknown_metadata e).
Proof.
  intros Hok.
  destruct (process_file w args p cs) as [r|e] eqn:Hr.
  - exists r. split; [reflexivity|].
    split; [eapply process_file_path, Hr|].
    split; [|apply get_file_metadata_stat_failure].
    rewrite process_file_unfold, Hok in Hr. simpl in Hr. unfold try_block in Hr.
    destruct (negb ok); [congruence|].
    destruct (is_binary w p default_sample_size && negb (include_binary args));
      [congruence|].
    destruct (build_file_header w p args (get_file_metadata w p) cs) as [hf|e'];
      simpl in Hr; [|congruence].
    destruct (read_text w p) as [content|e']; [congruence|].
    destruct (is_unicode_error e'); congruence.
  - apply process_file_raises in Hr. congruence.
Qed.

Lemma process_file_returns_one_result_witness :
  exists r,
    process_file Examples.abc_world Examples.abc_args "root/a.txt" "#" = Return r
    /\ file_path_of r = "root/a.txt"%string
    /\ status r = "success"%string.
Proof.
  destruct (process_file_returns_one_result Examples.abc_world Examples.abc_args
              "root/a.txt" "#" true ltac:(vm_compute; reflexivity))
    as (r & Hr & Hpath & Hcase & _).
  exists r. split; [exact Hr|]. split; [exact Hpath|].
  vm_compute in Hcase. rewrite Hcase. reflexivity.
Defined.

(** C8 as stated fails twice. A failure of [stat] while the metadata is
    read gives a success result, not an error result; and a failure of
    [getsize] inside the filter, which runs outside the [try] block, makes
    the worker call itself raise. *)
Lemma process_file_stat_failure_is_no_error :
  (os_stat Examples.nostat_world "root/a.txt" = Raise (Examples.eacces "root/a.txt")
   /\ exists h f,
        process_file Examples.nostat_world Examples.abc_args "root/a.txt" "#"
        = Return (Success "root/a.txt"
                    (unknown_metadata (Examples.eacces "root/a.txt")) h "hello" f))
  /\ (should_process_file Examples.nosize_world "root/a.txt" Examples.kb_args
      = Raise (Disk.enoent "root/a.txt")
      /\ process_file Examples.nosize_world Examples.kb_args "root/a.txt" "#"
         = Raise (Disk.enoent "root/a.txt")).
Proof.
  split.
  - split; [vm_compute; reflexivity|].
    do 2 eexists. vm_compute. reflexivity.
  - split; vm_compute; reflexivity.
Qed.





Lemma build_file_header_raises w p args metadata cs e :
  build_file_header w p args metadata cs = Raise e ->
  os_path_relpath w p (path args) = Raise e.
Proof.
  unfold build_file_header.
  destruct (os_path_relpath w p (path args)) as [rel|e']; simpl.
  - repeat match goal with
           | |- context [if ?b then _ else _] => destruct b
           end; discriminate.
  - intros [= ->]. reflexivity.
Qed.




(** * Further properties of the code *)

(** ** The filter: output file and exclusions *)

(** The output file is never processed, whatever the other options say
    and whatever can be learnt about the file: the filter rejects every
    path with the absolute form of the output path, the worker skips it,
    and no run writes it into its own body. *)
Theorem output_file_never_processed (w : World) (p : string) (args : Args) :
  os_path_abspath w p = os_path_abspath w (output args) ->
  should_process_file w p args = Return false
  /\ (forall cs, process_file w args p cs = Return (Skipped p "filtered out by rules"))
  /\ (forall schedule code run,
        main w args schedule = Return (code, Some run) ->
        ~ In p (map w_path (successes (run_results run)))).
Proof.
  intros Habs.
  assert (Hrej : should_process_file w p args = Return false).
  { unfold should_process_file, is_output_file.
    destruct (missing_or_unreadable w p); [reflexivity|].
    rewrite Habs, String.eqb_refl. reflexivity. }
  split; [exact Hrej|].
  split; [intros cs; apply process_file_filtered, Hrej|].
  intros schedule code run Hmain Hin.
  pose proof (written_paths_succeed _ _ _ _ _ _ Hmain Hin) as Hs.
  unfold succeeds in Hs. rewrite (process_file_filtered _ _ _ _ Hrej) in Hs.
  discriminate Hs.
Qed.

Lemma output_file_never_processed_witness :
  should_process_file Examples.abc_world "root/a.txt"
    (mkArgs "root" (Some "txt") None None false "/home/u/root/a.txt" "text" 2 true 4)
  = Return false.
Proof.
  apply (output_file_never_processed Examples.abc_world "root/a.txt"
           (mkArgs "root" (Some "txt") None None false "/home/u/root/a.txt"
                   "text" 2 true 4)).
  vm_compute; reflexivity.
Defined.



(** ** The binary check looks at a prefix only *)

Lemma append_cons (c : ascii) (a b : string) :
  (String c a ++ b)%string = String c (a ++ b)%string.
Proof. reflexivity. Qed.

Lemma substring_app_exact (s t : string) :
  substring 0 (String.length s) (s ++ t) = s.
Proof.
  induction s as [|c s IH].
  - destruct t; reflexivity.
  - rewrite append_cons. simpl. rewrite IH. reflexivity.
Qed.

Lemma substring_short (s : string) : forall n,
  (String.length s <= n)%nat -> substring 0 n s = s.
Proof.
  induction s as [|c s IH]; intros [|n] Hn; simpl in *; try reflexivity; try lia.
  rewrite IH by lia. reflexivity.
Qed.

Lemma utf8_run_app (a b : string) : forall st,
  Py.utf8_run st (a ++ b)
  = match Py.utf8_run st a with
    | Some st' => Py.utf8_run st' b
    | None => None
    end.
Proof.
  induction a as [|c a IH]; intros st; [reflexivity|].
  rewrite append_cons. simpl.
  destruct (Py.utf8_step st (N_of_ascii c)); [apply IH | reflexivity].
Qed.

Lemma contains_null_app (a b : string) :
  Py.contains_null (a ++ b) = Py.contains_null a || Py.contains_null b.
Proof.
  induction a as [|c a IH]; [reflexivity|].
  rewrite append_cons. simpl. rewrite IH, orb_assoc. reflexivity.
Qed.

Lemma decodes_utf8_Start (s : string) :
  Py.decodes_utf8 s = true <-> Py.utf8_run Py.Start s = Some Py.Start.
Proof.
  unfold Py.decodes_utf8.
  destruct (Py.utf8_run Py.Start s) as [[|n lo hi]|]; split; congruence.
Qed.

(** Bytes after the first 8192 have no part in the verdict: two files
    that start with the same 8192 bytes are classified alike. *)
Theorem is_binary_ignores_the_tail (w w' : World) (p p' sample tail tail' : string) :
  String.length sample = Z.to_nat 8192 ->
  open_rb w p = Return (sample ++ tail)%string ->
  open_rb w' p' = Return (sample ++ tail')%string ->
  is_binary w p default_sample_size = is_binary w' p' default_sample_size.
Proof.
  intros Hlen H H'. unfold is_binary. rewrite H, H'.
  unfold Py.read_prefix, default_sample_size.
  change (8192 <? 0) with false. cbv iota.
  rewrite <- Hlen, !substring_app_exact. reflexivity.
Qed.

Lemma is_binary_ignores_the_tail_witness :
  is_binary
    (Disk.world "/" "d" [Disk.mkFile "f" (Py.repeat_char "a" (Z.to_nat 8192) ++ "tail") 0 0]) "d/f"
    default_sample_size
  = is_binary
      (Disk.world "/" "d"
         [Disk.mkFile "g" (Py.repeat_char "a" (Z.to_nat 8192) ++ String "000" "x") 0 0]) "d/g"
      default_sample_size.
Proof.
  apply (is_binary_ignores_the_tail _ _ "d/f" "d/g" (Py.repeat_char "a" (Z.to_nat 8192))
           "tail" (String "000" "x")); vm_compute; reflexivity.
Defined.

Lemma ascii_prefix (P : ascii -> Prop) (a b : string) :
  Forall P (list_ascii_of_string (a ++ b)) -> Forall P (list_ascii_of_string a).
Proof.
  induction a as [|c a IH]; intros H; [constructor|].
  rewrite append_cons in H. simpl in H. inversion H; subst.
  simpl. constructor; auto.
Qed.

Lemma ascii_decodes (s : string) :
  Forall (fun c => (0 < N_of_ascii c <= 127)%N) (list_ascii_of_string s) ->
  Py.contains_null s = false /\ Py.utf8_run Py.Start s = Some Py.Start.
Proof.
  induction s as [|c s IH]; intros H; [split; reflexivity|].
  simpl in H. inversion H as [|? ? Hc Hs]; subst.
  destruct (IH Hs) as [Hnull Hrun]. split.
  - simpl. rewrite Hnull, orb_false_r.
    apply Ascii.eqb_neq. intros ->. simpl in Hc. lia.
  - simpl. destruct (N.leb_spec (N_of_ascii c) 127) as [_|Hgt]; [exact Hrun | lia].
Qed.

(** A file of plain ASCII without a null byte is never taken for
    binary; the empty file is one of them. *)
Theorem ascii_file_is_text (w : World) (p data : string) :
  open_rb w p = Return data ->
  Forall (fun c => (0 < N_of_ascii c <= 127)%N) (list_ascii_of_string data) ->
  is_binary w p default_sample_size = false.
Proof.
  intros Hopen Hascii. unfold is_binary. rewrite Hopen.
  destruct (substring_prefix data (Z.to_nat 8192)) as [rest Hrest].
  unfold Py.read_prefix, default_sample_size.
  change (8192 <? 0) with false. cbv iota.
  rewrite Hrest in Hascii. apply ascii_prefix, ascii_decodes in Hascii.
  destruct Hascii as [Hnull Hrun].
  rewrite Hnull. unfold Py.decodes_utf8. rewrite Hrun. reflexivity.
Qed.

Lemma ascii_file_is_text_witness :
  is_binary Examples.abc_world "root/a.txt" default_sample_size = false
  /\ is_binary (Disk.world "/" "d" [Disk.mkFile "empty" "" 0 0]) "d/empty"
               default_sample_size = false.
Proof.
  split.
  - apply (ascii_file_is_text Examples.abc_world "root/a.txt" "hello").
    + vm_compute; reflexivity.
    + repeat constructor; vm_compute; congruence.
  - apply (ascii_file_is_text _ "d/empty" "").
    + vm_compute; reflexivity.
    + constructor.
Defined.

Lemma utf8_step_Start_high (b : N) :
  (128 <= b)%N -> Py.utf8_step Py.Start b <> Some Py.Start.
Proof.
  intros Hb. simpl.
  destruct (N.leb_spec b 127) as [Hle|_]; [lia|].
  repeat match goal with
         | |- context [if ?c then _ else _] => destruct c
         end; discriminate.
Qed.

(** A text file can be taken for binary: when the first 8191 bytes are
    well-formed UTF-8 and byte 8192 is not ASCII, the sample ends inside a
    character or on a bad byte, and the verdict is "binary" whatever
    follows, also when the file as a whole is well-formed UTF-8. *)
Theorem is_binary_splits_a_character (w : World) (p pre rest : string) (c : ascii) :
  open_rb w p = Return (pre ++ String c rest)%string ->
  String.length pre = Z.to_nat 8191 ->
  Py.decodes_utf8 pre = true ->
  (128 <= N_of_ascii c)%N ->
  is_binary w p default_sample_size = true.
Proof.
  intros Hopen Hlen Hpre Hc. unfold is_binary. rewrite Hopen.
  unfold Py.read_prefix, default_sample_size.
  change (8192 <? 0) with false. cbv iota.
  replace (pre ++ String c rest)%string
    with ((pre ++ String c EmptyString) ++ rest)%string.
  2:{ clear. induction pre as [|d pre IH]; [reflexivity|].
      rewrite !append_cons, IH. reflexivity. }
  replace (Z.to_nat 8192) with (String.length (pre ++ String c EmptyString)).
  2:{ rewrite length_app, Hlen. simpl. lia. }
  rewrite substring_app_exact.
  destruct (Py.contains_null _); [reflexivity|].
  unfold Py.decodes_utf8. rewrite utf8_run_app.
  apply decodes_utf8_Start in Hpre. rewrite Hpre. cbn [Py.utf8_run].
  pose proof (utf8_step_Start_high (N_of_ascii c) Hc) as Hstep.
  destruct (Py.utf8_step Py.Start (N_of_ascii c)) as [[|n lo hi]|];
    [congruence | reflexivity | reflexivity].
Qed.

Lemma is_binary_splits_a_character_witness :
  Py.decodes_utf8
    (Py.repeat_char "a" (Z.to_nat 8191) ++ String "195" (String "169" EmptyString))
  = true
  /\ is_binary
       (Disk.world "/" "d"
          [Disk.mkFile "f"
             (Py.repeat_char "a" (Z.to_nat 8191)
              ++ String "195" (String "169" EmptyString)) 0 0])
       "d/f" default_sample_size
     = true.
Proof.
  split; [vm_compute; reflexivity|].
  apply (is_binary_splits_a_character _ "d/f" (Py.repeat_char "a" (Z.to_nat 8191))
           (String "169" EmptyString) "195"%char).
  - vm_compute; reflexivity.
  - vm_compute; reflexivity.
  - vm_compute; reflexivity.
  - vm_compute. discriminate.
Defined.

(** Passing the binary check does not promise readable text: when the
    sample passes but the file as a whole is not UTF-8, the worker skips
    the file with the reason "encoding error", and not as binary. *)
Theorem late_bad_bytes_give_encoding_error (w : World) (args : Args)
    (p cs data rel : string) :
  should_process_file w p args = Return true ->
  is_binary w p default_sample_size = false ->
  os_path_relpath w p (path args) = Return rel ->
  open_r w p = Return data ->
  Py.decodes_utf8 data = false ->
  process_file w args p cs = Return (Skipped p "encoding error").
Proof.
  intros Hok Hbin Hrel Hopen Hbad.
  rewrite process_file_unfold, Hok. simpl. rewrite Hbin. simpl.
  unfold try_block, read_text. rewrite Hopen. cbn [bind]. rewrite Hbad.
  destruct (build_file_header w p args (get_file_metadata w p) cs) as [hf|e] eqn:Hhf.
  - reflexivity.
  - apply build_file_header_raises in Hhf. congruence.
Qed.

Lemma late_bad_bytes_give_encoding_error_witness :
  process_file
    (Disk.world "/" "d"
       [Disk.mkFile "f" (Py.repeat_char "a" (Z.to_nat 8192) ++ String "255" EmptyString)
                    0 0])
    (Disk.default_args "d") "d/f" "#"
  = Return (Skipped "d/f" "encoding error").
Proof.
  apply (late_bad_bytes_give_encoding_error _ _ "d/f" "#"
           (Py.repeat_char "a" (Z.to_nat 8192) ++ String "255" EmptyString) "f");
    vm_compute; reflexivity.
Defined.

(** For a file of at most 8192 bytes the check is exact: when it passes
    and the text-mode reader sees the same bytes, the content is read
    without a decoding error and the file succeeds. *)
Theorem small_text_file_succeeds (w : World) (args : Args) (p cs data rel : string) :
  should_process_file w p args = Return true ->
  open_rb w p = Return data ->
  open_r w p = Return data ->
  (String.length data <= Z.to_nat 8192)%nat ->
  is_binary w p default_sample_size = false ->
  os_path_relpath w p (path args) = Return rel ->
  exists h f,
    process_file w args p cs
    = Return (Success p (get_file_metadata w p) h (Py.universal_newlines data) f).
Proof.
  intros Hok Hrb Hr Hlen Hbin Hrel.
  assert (Hdec : Py.decodes_utf8 data = true).
  { unfold is_binary in Hbin. rewrite Hrb in Hbin.
    unfold Py.read_prefix, default_sample_size in Hbin.
    change (8192 <? 0) with false in Hbin. cbv iota in Hbin.
    rewrite (substring_short _ _ Hlen) in Hbin.
    destruct (Py.contains_null data); [discriminate|].
    destruct (Py.decodes_utf8 data); [reflexivity | discriminate]. }
  rewrite process_file_unfold, Hok. simpl. rewrite Hbin. simpl.
  unfold try_block, read_text. rewrite Hr. cbn [bind]. rewrite Hdec.
  destruct (build_file_header w p args (get_file_metadata w p) cs) as [hf|e] eqn:Hhf.
  - cbn [bind]. eauto.
  - apply build_file_header_raises in Hhf. congruence.
Qed.

Lemma small_text_file_succeeds_witness :
  exists h f,
    process_file Examples.abc_world Examples.abc_args "root/a.txt" "#"
    = Return (Success "root/a.txt"
                (get_file_metadata Examples.abc_world "root/a.txt") h "hello" f).
Proof.
  apply (small_text_file_succeeds Examples.abc_world Examples.abc_args
           "root/a.txt" "#" "hello" "a.txt"); try (vm_compute; reflexivity).
  vm_compute. lia.
Defined.

(** ** What a success holds *)

(** Every success is decoded text: the result carries the path it was
    asked for, the metadata of that path and the header and footer built
    from them, and its content is the newline-translated text of bytes
    that are well-formed UTF-8. A file that is not UTF-8 never succeeds,
    with or without [--include-binary]. *)
Theorem success_is_decoded_text (w : World) (args : Args) (p cs p' : string)
    (m : Metadata) (h c f : string) :
  process_file w args p cs = Return (Success p' m h c f) ->
  p' = p
  /\ m = get_file_metadata w p
  /\ build_file_header w p args m cs = Return (h, f)
  /\ should_process_file w p args = Return true
  /\ (is_binary w p default_sample_size = false \/ include_binary args = true)
  /\ exists raw,
       open_r w p = Return raw
       /\ Py.decodes_utf8 raw = true
       /\ c = Py.universal_newlines raw.
Proof.
  rewrite process_file_unfold.
  destruct (should_process_file w p args) as [[|]|e]; simpl; try discriminate.
  destruct (is_binary w p default_sample_size) eqn:Hbin;
    destruct (include_binary args) eqn:Hinc; simpl; try discriminate.
  all: unfold try_block, read_text.
  all: destruct (build_file_header w p args (get_file_metadata w p) cs)
         as [[h0 f0]|e] eqn:Hhf; cbn [bind]; try discriminate.
  all: destruct (open_r w p) as [raw|e]; cbn [bind];
         [|destruct (is_unicode_error e); discriminate].
  all: destruct (Py.decodes_utf8 raw) eqn:Hdec; simpl; try discriminate.
  all: intros [= <- <- <- <- <-].
  all: repeat split; auto; exists raw; auto.
Qed.

Lemma success_is_decoded_text_witness :
  exists raw,
    open_r Examples.abc_world "root/c.log" = Return raw
    /\ Py.decodes_utf8 raw = true
    /\ "world"%string = Py.universal_newlines raw.
Proof.
  eapply (success_is_decoded_text Examples.abc_world Examples.abc_args
            "root/c.log" "#").
  vm_compute. reflexivity.
Defined.

Lemma universal_newlines_no_cr_bounded (n : nat) : forall s,
  (String.length s <= n)%nat ->
  ~ In "013"%char (list_ascii_of_string (Py.universal_newlines s)).
Proof.
  induction n as [|n IH]; intros [|c s] Hlen; simpl in *; try lia; try tauto.
  destruct (Ascii.eqb_spec c "013") as [->|Hc].
  - destruct s as [|d s]; simpl in *.
    + intros [H|[]]; discriminate H.
    + destruct (Ascii.eqb d "010"); simpl.
      * intros [H|H]; [discriminate H|]. apply (IH s); [lia | exact H].
      * intros [H|H]; [discriminate H|]. apply (IH (String d s)); [simpl; lia | exact H].
  - simpl. intros [H|H]; [congruence|]. apply (IH s); [lia | exact H].
Qed.

Lemma universal_newlines_id (s : string) :
  ~ In "013"%char (list_ascii_of_string s) -> Py.universal_newlines s = s.
Proof.
  induction s as [|c s IH]; intros H; [reflexivity|].
  simpl in H. simpl.
  destruct (Ascii.eqb_spec c "013") as [->|Hc]; [tauto|].
  rewrite IH by tauto. reflexivity.
Qed.

(** The content read from a file never holds a carriage return, and a
    file without carriage returns is read byte for byte. *)
Theorem content_has_no_carriage_return (w : World) (p content : string) :
  read_text w p = Return content ->
  ~ In "013"%char (list_ascii_of_string content)
  /\ (forall raw,
        open_r w p = Return raw ->
        ~ In "013"%char (list_ascii_of_string raw) ->
        content = raw).
Proof.
  unfold read_text.
  destruct (open_r w p) as [raw|e]; cbn [bind]; [|discriminate].
  destruct (Py.decodes_utf8 raw); [|discriminate].
  intros [= <-]. split.
  - apply (universal_newlines_no_cr_bounded (String.length raw)). lia.
  - intros raw' [= <-] Hcr. apply universal_newlines_id, Hcr.
Qed.

Lemma content_has_no_carriage_return_witness :
  ~ In "013"%char
       (list_ascii_of_string ("a" ++ String "010" ("b" ++ String "010" "c"))).
Proof.
  apply (content_has_no_carriage_return
           (Disk.world "/" "d"
              [Disk.mkFile "f" ("a" ++ String "013" (String "010" ("b" ++ String "013" "c")))
                           0 0])
           "d/f").
  vm_compute. reflexivity.
Defined.

(** The metadata either is complete, with the size that [stat] gave and
    no ["error"] key, or is the fallback as a whole: as soon as [stat] or
    one of the two date conversions raises, the size is 0 and the three
    texts are "Unknown", even when [stat] had given the size. *)
Theorem metadata_is_complete_or_fallback (w : World) (p : string) :
  let md := get_file_metadata w p in
  (m_error md = None ->
   exists st created modified,
     os_stat w p = Return st
     /\ datetime_fromtimestamp w (st_ctime st) = Return created
     /\ datetime_fromtimestamp w (st_mtime st) = Return modified
     /\ md = mkMetadata (st_size st) (get_human_readable_size (st_size st))
                        created modified None)
  /\ (forall msg,
        m_error md = Some msg ->
        md = mkMetadata 0 "Unknown" "Unknown" "Unknown" (Some msg)
        /\ exists e,
             exn_msg e = msg
             /\ (os_stat w p = Raise e
                 \/ exists st,
                      os_stat w p = Return st
                      /\ (datetime_fromtimestamp w (st_ctime st) = Raise e
                          \/ datetime_fromtimestamp w (st_mtime st) = Raise e))).
Proof.
  intros md. subst md. unfold get_file_metadata.
  destruct (os_stat w p) as [st|e] eqn:Hst; cbn [bind].
  - destruct (datetime_fromtimestamp w (st_ctime st)) as [c|e] eqn:Hc; cbn [bind].
    + destruct (datetime_fromtimestamp w (st_mtime st)) as [m|e] eqn:Hm; cbn [bind].
      * split; [|discriminate]. intros _. exists st, c, m. auto.
      * split; [discriminate|]. intros msg [= <-]. split; [reflexivity|].
        exists e. split; [reflexivity|]. right. exists st. auto.
    + split; [discriminate|]. intros msg [= <-]. split; [reflexivity|].
      exists e. split; [reflexivity|]. right. exists st. auto.
  - split; [discriminate|]. intros msg [= <-]. split; [reflexivity|].
    exists e. auto.
Qed.

Lemma metadata_is_complete_or_fallback_witness :
  exists st created modified,
    os_stat Examples.abc_world "root/a.txt" = Return st
    /\ datetime_fromtimestamp Examples.abc_world (st_ctime st) = Return created
    /\ datetime_fromtimestamp Examples.abc_world (st_mtime st) = Return modified
    /\ get_file_metadata Examples.abc_world "root/a.txt"
       = mkMetadata (st_size st) (get_human_readable_size (st_size st))
                    created modified None.
Proof.
  apply (proj1 (metadata_is_complete_or_fallback Examples.abc_world "root/a.txt")).
  vm_compute. reflexivity.
Defined.

(** ** The run as a whole *)

Lemma count_partition (results : list Result) :
  count is_success results + count is_skipped results + count is_error results
  = len results.
Proof.
  unfold len. induction results as [|r rs IH]; [reflexivity|].
  simpl count. simpl length. destruct r; simpl; lia.
Qed.

Lemma process_all_paths w args files results :
  process_all w args files = Return results ->
  map file_path_of results = files.
Proof.
  unfold process_all. rewrite mapM_Forall2.
  induction 1 as [|p r fs rs Hp _ IH]; simpl; [reflexivity|].
  rewrite (process_file_path _ _ _ _ _ Hp), IH. reflexivity.
Qed.

(** Every discovered path gets exactly one result, at its own place: the
    paths of the results are the discovered paths in discovery order, the
    three kinds of result add up to the number of files, and so do the
    [processed] and [skipped] statistics. *)
Theorem every_file_has_one_result (w : World) (args : Args) (schedule : list nat)
    (code : Z) (run : Run) :
  main w args schedule = Return (code, Some run) ->
  exists files,
    get_all_files w (path args) (recursive args) = Return files
    /\ map file_path_of (run_results run) = files
    /\ count is_success (run_results run) + count is_skipped (run_results run)
       + count is_error (run_results run) = len files
    /\ processed (run_stats run) + skipped (run_stats run) = len files.
Proof.
  intros Hmain.
  apply main_inv in Hmain as (_ & files & Hfiles & Hall & Hrun).
  exists files. split; [exact Hfiles|].
  pose proof (process_all_paths _ _ _ _ Hall) as Hpaths.
  assert (Hlen : len (run_results run) = len files).
  { unfold len. rewrite <- Hpaths, length_map. reflexivity. }
  split; [exact Hpaths|].
  split; [rewrite count_partition; exact Hlen|].
  rewrite Hrun. simpl.
  rewrite count_status_success, count_status_skipped, count_status_error.
  pose proof (count_partition (run_results run)). lia.
Qed.

Lemma every_file_has_one_result_witness :
  exists run files,
    main Examples.noread_world Examples.abc_args Examples.abc_schedule
    = Return (0, Some run)
    /\ get_all_files Examples.noread_world "root" true = Return files
    /\ map file_path_of (run_results run) = files
    /\ processed (run_stats run) + skipped (run_stats run) = len files.
Proof.
  eexists.
  match goal with
  | |- exists files, ?M = Return (0, Some ?r) /\ _ =>
      assert (Hmain : M = Return (0, Some r)) by (vm_compute; reflexivity)
  end.
  destruct (every_file_has_one_result _ _ _ _ _ Hmain)
    as (files & Hfiles & Hpaths & _ & Hsum).
  exists files. auto.
Defined.


(** One unreadable size stops everything: when the filter raises for a
    discovered path and returns for the paths before it, the whole run
    raises that exception, under every schedule, whatever the other files
    are. *)
Theorem filter_failure_aborts_the_run (w : World) (args : Args)
    (before after : list string) (p : string) (e : Exn) (schedule : list nat) :
  os_path_isdir w (path args) = true ->
  0 < workers args ->
  get_all_files w (path args) (recursive args) = Return (before ++ p :: after) ->
  Forall (fun q => exists ok, should_process_file w q args = Return ok) before ->
  should_process_file w p args = Raise e ->
  main w args schedule = Raise e.
Proof.
  intros Hdir Hw Hfiles Hbefore Hp.
  rewrite main_sequential, Hdir, Hfiles. simpl.
  destruct (Z.leb_spec (workers args) 0) as [Hle|_]; [lia|].
  assert (Hall : process_all w args (before ++ p :: after) = Raise e).
  { unfold process_all. clear Hfiles.
    induction Hbefore as [|q before [ok Hq] _ IH]; simpl.
    - apply (proj2 (process_file_raises w args p (comment_token args) e)) in Hp.
      rewrite Hp. reflexivity.
    - destruct (process_file w args q (comment_token args)) as [r|e'] eqn:Hr.
      + simpl. rewrite IH. reflexivity.
      + apply process_file_raises in Hr. congruence. }
  rewrite Hall. reflexivity.
Qed.

Lemma filter_failure_aborts_the_run_witness :
  main Examples.nosize_world Examples.kb_args Examples.abc_schedule
  = Raise (Disk.enoent "root/a.txt").
Proof.
  apply (filter_failure_aborts_the_run Examples.nosize_world Examples.kb_args
           [] ["root/b.bin"; "root/c.log"]%string "root/a.txt").
  - vm_compute; reflexivity.
  - vm_compute; reflexivity.
  - vm_compute; reflexivity.
  - constructor.
  - vm_compute; reflexivity.
Defined.

Lemma enumerate1_lookup {A} (l : list A) : forall (i : Z) (k : nat),
  enumerate1 i l !! k = (fun a => (i + Z.of_nat k + 1, a)) <$> l !! k.
Proof.
  induction l as [|a l IH]; intros i k; [destruct k; reflexivity|].
  destruct k as [|k].
  - cbn. f_equal. f_equal. lia.
  - cbn [enumerate1]. rewrite !lookup_cons. rewrite IH.
    destruct (l !! k); simpl; [|reflexivity].
    f_equal. f_equal. lia.
Qed.

Lemma errors_of_filter results : errors_of results = List.filter is_error results.
Proof.
  unfold errors_of. apply List.filter_ext. intros []; reflexivity.
Qed.

(** The error sample of the summary: the first five error results in
    discovery order, numbered from 1, each with its path and reason; the
    count of the errors left out is given only when there are more than
    five. *)
Theorem summary_shows_first_five_errors (w : World) (args : Args)
    (schedule : list nat) (code : Z) (run : Run) :
  main w args schedule = Return (code, Some run) ->
  let errs := List.filter is_error (run_results run) in
  length (shown_errors (run_summary run)) = Nat.min 5 (length errs)
  /\ (forall k p reason,
        (k < 5)%nat ->
        errs !! k = Some (Error p reason) ->
        shown_errors (run_summary run) !! k = Some (Z.of_nat k + 1, p, reason))
  /\ more_errors (run_summary run)
     = if 5 <? len errs then Some (len errs - 5) else None.
Proof.
  intros Hmain errs. subst errs.
  apply main_inv in Hmain as (_ & files & _ & _ & Hrun).
  rewrite Hrun. simpl. rewrite errors_of_filter.
  set (errs := List.filter is_error (run_results run)).
  split; [|split].
  - rewrite length_map.
    assert (H : forall (l : list Result) i, length (enumerate1 i l) = length l).
    { induction l as [|a l IH]; intros i; simpl; [reflexivity | rewrite IH; reflexivity]. }
    rewrite H, length_firstn. reflexivity.
  - intros k p reason Hk Hlook.
    change (map ?f ?l) with (f <$> l).
    rewrite list_lookup_fmap, enumerate1_lookup, lookup_take_lt, Hlook by exact Hk.
    simpl. reflexivity.
  - reflexivity.
Qed.

Lemma summary_shows_first_five_errors_witness :
  exists run,
    main Examples.noread_world Examples.abc_args [] = Return (0, Some run)
    /\ shown_errors (run_summary run)
       = [(1, "root/a.txt"%string, "[Errno 13] Permission denied: 'root/a.txt'"%string)]
    /\ length (shown_errors (run_summary run))
       = Nat.min 5 (length (List.filter is_error (run_results run))).
Proof.
  eexists. split; [vm_compute; reflexivity|].
  split; [vm_compute; reflexivity|].
  match goal with
  | |- context [run_summary ?r] =>
      apply (summary_shows_first_five_errors Examples.noread_world
               Examples.abc_args [] 0 r)
  end.
  vm_compute; reflexivity.
Defined.

(** Two runs that differ in the moment only give the same results, the
    same statistics and the same summary, and documents that differ in
    nothing but the document header, where the clock is printed. *)
Theorem clock_changes_only_the_header (w : World) (t : string) (args : Args)
    (schedule : list nat) :
  match main w args schedule, main (with_datetime_now t w) args schedule with
  | Return (code, Some run), Return (code', Some run') =>
      code = code'
      /\ run_results run = run_results run'
      /\ run_stats run = run_stats run'
      /\ run_summary run = run_summary run'
      /\ exists rest,
           run_written run = write_output_header w [] args ++ rest
           /\ run_written run'
              = write_output_header (with_datetime_now t w) [] args ++ rest
  | Return (code, None), Return (code', None) => code = code'
  | Raise e, Raise e' => e = e'
  | _, _ => False
  end.
Proof.
  rewrite !main_sequential.
  change (os_path_isdir (with_datetime_now t w)) with (os_path_isdir w).
  change (get_all_files (with_datetime_now t w)) with (get_all_files w).
  change (open_w (with_datetime_now t w)) with (open_w w).
  destruct (os_path_isdir w (path args)); simpl; [|reflexivity].
  destruct (get_all_files w (path args) (recursive args)) as [files|e]; simpl;
    [|reflexivity].
  destruct (workers args <=? 0); [reflexivity|].
  change (process_all (with_datetime_now t w) args files)
    with (process_all w args files).
  destruct (process_all w args files) as [results|e]; simpl; [|reflexivity].
  destruct (open_w w (output args)) as [[]|e]; simpl; [|reflexivity].
  repeat split.
  exists (body_of results ++ write_output_footer [] args (stats_of results)).
  split; rewrite (write_output_footer_app (_ ++ _)), <- app_assoc; reflexivity.
Qed.

(** ** Listing the directory *)


(** ** The single-file script and the package *)

Lemma mapM_ext {A B} (f g : A -> Exc B) (l : list A) :
  (forall a, f a = g a) -> mapM f l = mapM g l.
Proof.
  intros H. induction l as [|a l IH]; simpl; [reflexivity|].
  rewrite H, IH. reflexivity.
Qed.

Lemma executor_map_ext {T R} (f g : T -> Exc R) n tasks schedule :
  (forall t, f t = g t) ->
  Executor.map_ f n tasks schedule = Executor.map_ g n tasks schedule.
Proof.
  intros H. unfold Executor.map_. destruct (n <=? 0); [reflexivity|].
  rewrite !ExecutorFacts.collect_consistent by apply ExecutorFacts.run_consistent.
  apply mapM_ext, H.
Qed.

Lemma legacy_header_footer w args p metadata cs rel :
  known_format args ->
  os_path_relpath w p (path args) = Return rel ->
  exists hf,
    Legacy.header_footer args metadata cs rel = Some hf
    /\ build_file_header w p args metadata cs = Return hf.
Proof.
  intros Hfmt Hrel. unfold build_file_header, Legacy.header_footer.
  rewrite Hrel. cbn [bind].
  destruct Hfmt as [-> | [-> | ->]]; simpl; eexists; split; reflexivity.
Qed.

(** The worker of the single-file script and the worker of the package
    give the same result for each of the three formats of the command
    line. Under any other format they part: the script leaves [header]
    unbound and cannot succeed, while the package falls back to a plain
    heading. *)
Theorem legacy_process_file_agrees (w : World) (args : Args) (p cs : string) :
  (known_format args -> Legacy.process_file w args p cs = process_file w args p cs)
  /\ (~ known_format args ->
      forall r, Legacy.process_file w args p cs = Return r -> is_success r = false).
Proof.
  split.
  - intros Hfmt. rewrite process_file_unfold. unfold Legacy.process_file.
    change (Legacy.should_process_file w p args) with (should_process_file w p args).
    change (Legacy.is_binary w p default_sample_size)
      with (is_binary w p default_sample_size).
    change (Legacy.get_file_metadata w p) with (get_file_metadata w p).
    destruct (should_process_file w p args) as [[|]|e]; simpl; try reflexivity.
    destruct (is_binary w p default_sample_size && negb (include_binary args));
      [reflexivity|].
    unfold try_block.
    destruct (os_path_relpath w p (path args)) as [rel|e] eqn:Hrel.
    + cbn [bind]. cbv zeta.
      destruct (legacy_header_footer w args p (get_file_metadata w p) cs rel Hfmt Hrel)
        as ([h f] & -> & ->).
      cbn [bind]. destruct (read_text w p); reflexivity.
    + unfold build_file_header. rewrite Hrel. reflexivity.
  - intros Hfmt r. unfold Legacy.process_file.
    destruct (Legacy.should_process_file w p args) as [[|]|e]; simpl;
      try discriminate; [|intros [= <-]; reflexivity].
    destruct (Legacy.is_binary w p default_sample_size && negb (include_binary args));
      [intros [= <-]; reflexivity|].
    destruct (os_path_relpath w p (path args)) as [rel|e]; cbn [bind];
      [|intros [= <-]; reflexivity].
    cbv zeta.
    assert (Hnone : forall m, Legacy.header_footer args m cs rel = None).
    { intros m. unfold Legacy.header_footer, known_format in *.
      destruct (String.eqb_spec (format args) "text"); [tauto|].
      destruct (String.eqb_spec (format args) "md"); [tauto|].
      destruct (String.eqb_spec (format args) "html"); [tauto|].
      reflexivity. }
    rewrite Hnone.
    destruct (read_text w p) as [content|e]; [intros [= <-]; reflexivity|].
    destruct (is_unicode_error e); intros [= <-]; reflexivity.
Qed.

Lemma legacy_process_file_agrees_witness :
  Legacy.process_file Examples.abc_world Examples.abc_args "root/a.txt" "#"
  = process_file Examples.abc_world Examples.abc_args "root/a.txt" "#"
  /\ forall r,
       Legacy.process_file Examples.abc_world
         (mkArgs "root" None None None false "out.txt" "rst" 2 true 4) "root/a.txt" "#"
       = Return r ->
       is_success r = false.
Proof.
  split.
  - apply (proj1 (legacy_process_file_agrees Examples.abc_world Examples.abc_args
                    "root/a.txt" "#")).
    left. reflexivity.
  - apply (proj2 (legacy_process_file_agrees Examples.abc_world
                    (mkArgs "root" None None None false "out.txt" "rst" 2 true 4)
                    "root/a.txt" "#")).
    intros [H | [H | H]]; discriminate H.
Defined.

(** Under the three formats of the command line, a run of the
    single-file script and a run of the package end alike: the same exit
    status, results, statistics, document and summary, or the same
    exception. *)
Theorem legacy_main_agrees (w : World) (args : Args) (schedule : list nat) :
  known_format args ->
  Legacy.main w args schedule = main w args schedule.
Proof.
  intros Hfmt. rewrite main_sequential. unfold Legacy.main.
  destruct (negb (os_path_isdir w (path args))); [reflexivity|].
  change (Legacy.get_all_files w (path args) (recursive args))
    with (get_all_files w (path args) (recursive args)).
  destruct (get_all_files w (path args) (recursive args)) as [files|e];
    cbn [bind]; [|reflexivity].
  destruct (Z.leb_spec (workers args) 0) as [Hle|Hlt].
  { unfold Executor.map_. destruct (Z.leb_spec (workers args) 0); [reflexivity | lia]. }
  rewrite ExecutorFacts.map_in_order by exact Hlt.
  rewrite (mapM_ext _ (fun q => process_file w args q (comment_token args))).
  2:{ intros q. apply (proj1 (legacy_process_file_agrees w args q _) Hfmt). }
  fold (process_all w args files).
  destruct (process_all w args files) as [results|e]; cbn [bind]; [|reflexivity].
  change (List.filter (status_is "success") results) with (successful_of results).
  change (List.filter (status_is "skipped") results) with (skipped_of results).
  change (List.filter (status_is "error") results) with (errors_of results).
  rewrite sizes_of_successful. cbn [bind]. cbv zeta.
  destruct (open_w w (output args)) as [[]|e]; cbn [bind]; [|reflexivity].
  change (Legacy.write_output_header w [] args) with (write_output_header w [] args).
  pose proof (write_files_of results (write_output_header w [] args)) as Hw.
  unfold write_files in Hw. rewrite Hw. cbn [bind].
  rewrite shown_errors_of by apply Forall_take, errors_of_status.
  reflexivity.
Qed.

Lemma legacy_main_agrees_witness :
  Legacy.main Examples.abc_world Examples.abc_args Examples.abc_schedule
  = main Examples.abc_world Examples.abc_args Examples.abc_schedule.
Proof.
  apply (legacy_main_agrees Examples.abc_world Examples.abc_args Examples.abc_schedule).
  left. reflexivity.
Defined.

(** ** The first script *)



(** ** Edges of the options *)

(** The size rule at its edge. Under a maximum [m] other than 0, rule 3
    rejects exactly the files of more than [m * 1024] bytes: a file of
    exactly that size passes; and under a negative maximum every file is
    rejected, the empty one included. *)
Theorem size_rule_boundary (w : World) (p : string) (args : Args) (m sz : Z) :
  max_size args = Some m -> m <> 0 ->
  os_path_getsize w p = Return sz ->
  (over_max_size w p args = Return true <-> m * 1024 < sz)
  /\ (sz = m * 1024 -> over_max_size w p args = Return false)
  /\ (m < 0 -> 0 <= sz -> should_process_file w p args = Return false).
Proof.
  intros Hm Hm0 Hsz.
  assert (Hover : over_max_size w p args = Return (m * 1024 <? sz)).
  { unfold over_max_size. rewrite Hm.
    destruct (Z.eqb_spec m 0) as [|_]; [contradiction|].
    rewrite Hsz. reflexivity. }
  split; [|split].
  - rewrite Hover. destruct (Z.ltb_spec (m * 1024) sz) as [Hlt|Hge]; split;
      intros Hx; try reflexivity; try lia; try discriminate Hx.
  - intros ->. rewrite Hover, Z.ltb_irrefl. reflexivity.
  - intros Hneg Hpos. unfold should_process_file.
    destruct (missing_or_unreadable w p); [reflexivity|].
    destruct (is_output_file w p args); [reflexivity|].
    rewrite Hover. destruct (Z.ltb_spec (m * 1024) sz); [reflexivity | lia].
Qed.

Lemma size_rule_boundary_witness :
  should_process_file Examples.abc_world "root/a.txt"
    (with_max_size (Some (-1)) Examples.abc_args) = Return false.
Proof.
  refine (proj2 (proj2 (size_rule_boundary Examples.abc_world "root/a.txt"
                          (with_max_size (Some (-1)) Examples.abc_args) (-1) 5
                          _ _ _)) _ _).
  - reflexivity.
  - lia.
  - vm_compute; reflexivity.
  - lia.
  - lia.
Defined.

(** An empty [--include] or [--exclude] is no option at all: the filter
    answers as it does when the option is not given. *)
Theorem empty_extension_option_is_unset (w : World) (p : string)
    (dir : string) (inc exc : option string) (m : option Z) (ib : bool)
    (out fmt : string) (cs : Z) (rec : bool) (wk : Z) :
  should_process_file w p (mkArgs dir (Some EmptyString) exc m ib out fmt cs rec wk)
  = should_process_file w p (mkArgs dir None exc m ib out fmt cs rec wk)
  /\ should_process_file w p (mkArgs dir inc (Some EmptyString) m ib out fmt cs rec wk)
     = should_process_file w p (mkArgs dir inc None m ib out fmt cs rec wk).
Proof. split; reflexivity. Qed.



(** Every header names its file: whatever the format, also one that the
    command line does not offer, the header that [build_file_header]
    returns holds the path of the file relative to the scanned directory,
    and the call raises only when that relative path cannot be formed. *)
Theorem header_names_the_file (w : World) (p : string) (args : Args)
    (metadata : Metadata) (cs : string) :
  match build_file_header w p args metadata cs with
  | Return (header, footer) =>
      exists rel pre post,
        os_path_relpath w p (path args) = Return rel
        /\ header = (pre ++ rel ++ post)%string
  | Raise e => os_path_relpath w p (path args) = Raise e
  end.
Proof.
  unfold build_file_header.
  destruct (os_path_relpath w p (path args)) as [rel|e]; cbn [bind]; [|reflexivity].
  assert (Happ : forall a b c : string, ((a ++ b) ++ c = a ++ (b ++ c))%string).
  { intros a b c. induction a as [|x a IH]; [reflexivity|].
    rewrite !append_cons, IH. reflexivity. }
  destruct (String.eqb (format args) "text");
    [|destruct (String.eqb (format args) "md");
      [|destruct (String.eqb (format args) "html")]].
  - exists rel, (cs ++ " File: ")%string. eexists. split; [reflexivity|].
    unfold line. rewrite !Happ. reflexivity.
  - exists rel, "## "%string. eexists. split; [reflexivity|].
    unfold line. rewrite !Happ. reflexivity.
  - exists rel, (line "<div class='file'>" ++ "<h2>")%string. eexists.
    split; [reflexivity|]. unfold line. rewrite !Happ. reflexivity.
  - exists rel, "# "%string. eexists. split; [reflexivity|].
    unfold line. rewrite !Happ. reflexivity.
Qed.
